(** * stubsrv: the routing and matching engine of the HTTP stub server

    A shallow embedding of [matchers.go], [middleware.go] and [stubsrv.go]
    (the variant with templated routes and the control plane, and [Start] of
    the earlier variant), with the properties of the matcher, the middleware
    chain, the dispatcher, the control plane and the server life cycle proved
    over it. *)

From Stdlib Require Import ZArith Ascii String List Bool Lia.
From stdpp Require Import base option list strings gmap fin_maps.

Open Scope string_scope.

(** ** Go's [strings] package, at the call sites of the repository

    Go strings are byte sequences, as [string] is here.  The cut set of
    [strings.Trim] and the separator of [strings.Split] are the one-byte
    string ["/"] at every call site, so both take a single byte. *)

Definition slash : ascii := "/"%char.
Definition colon : ascii := ":"%char.

(** [strings.TrimLeft] for a one-byte cut set. *)
Fixpoint trimLeftByte (s : string) (c : ascii) : string :=
  match s with
  | String a s' => if Ascii.eqb a c then trimLeftByte s' c else s
  | EmptyString => EmptyString
  end.

(** [strings.TrimRight] for a one-byte cut set. *)
Fixpoint trimRightByte (s : string) (c : ascii) : string :=
  match s with
  | String a s' =>
      match trimRightByte s' c with
      | EmptyString => if Ascii.eqb a c then EmptyString else String a EmptyString
      | t => String a t
      end
  | EmptyString => EmptyString
  end.

(** [strings.Trim(s, cutset)] with [len(cutset) == 1]: Go returns
    [trimLeftByte(trimRightByte(s, cutset[0]), cutset[0])]. *)
Definition strings_Trim (s : string) (c : ascii) : string :=
  trimLeftByte (trimRightByte s c) c.

(** [strings.Split(s, sep)] with a one-byte [sep]: the pieces between the
    occurrences of [sep]; one more piece than there are separators, so the
    empty string splits to one empty piece. *)
Fixpoint strings_Split (s : string) (sep : ascii) : list string :=
  match s with
  | EmptyString => [EmptyString]
  | String a s' =>
      if Ascii.eqb a sep then EmptyString :: strings_Split s' sep
      else match strings_Split s' sep with
           | piece :: pieces => String a piece :: pieces
           | [] => [String a EmptyString]
           end
  end.

(** [strings.HasPrefix(s, prefix)]. *)
Definition strings_HasPrefix (s pre : string) : bool := String.prefix pre s.

(** [strings.HasSuffix(s, suffix)]:
    [len(s) >= len(suffix) && s[len(s)-len(suffix):] == suffix]. *)
Definition strings_HasSuffix (s suf : string) : bool :=
  (String.length suf <=? String.length s)%nat &&
  String.eqb
    (String.substring (String.length s - String.length suf) (String.length suf) s)
    suf.

(** [strings.Contains(s, substr)] with a one-byte [substr]. *)
Fixpoint strings_ContainsByte (s : string) (c : ascii) : bool :=
  match s with
  | EmptyString => false
  | String a s' => Ascii.eqb a c || strings_ContainsByte s' c
  end.

(** Number of occurrences of a byte, to count the pieces of a split. *)
Fixpoint countByte (s : string) (c : ascii) : nat :=
  match s with
  | EmptyString => 0
  | String a s' => (if Ascii.eqb a c then 1 else 0) + countByte s' c
  end.

(** ** [net/url]: [url.Values] and [Values.Get] *)

Abbreviation Values := (gmap string (list string)).

(** [Values.Get(key)]: the first value of [key], or the empty string when
    the key has no values. *)
Definition Values_Get (v : Values) (key : string) : string :=
  match v !! key with
  | Some (x :: _) => x
  | _ => EmptyString
  end.

(** ** matchers.go *)

(** The request segments [pathMatch] compares against:
    [strings.Split(strings.Trim(rawPath, "/"), "/")]. *)
Definition reqSegsOf (rawPath : string) : list string :=
  strings_Split (strings_Trim rawPath slash) slash.

(** The [for i, seg := range tplSegs] loop of [pathMatch], started at
    index [i]: a segment with prefix [":"] is skipped, another one is
    compared with [reqSegs[i]]. *)
Fixpoint pathMatch_loop (reqSegs : list string) (i : nat) (tplSegs : list string) : bool :=
  match tplSegs with
  | [] => true
  | seg :: rest =>
      if strings_HasPrefix seg ":" then pathMatch_loop reqSegs (S i) rest
      else match reqSegs !! i with
           | Some rseg =>
               if String.eqb seg rseg then pathMatch_loop reqSegs (S i) rest
               else false
           | None => false (* index out of range: excluded by the length test *)
           end
  end.

Definition pathMatch (tplSegs : list string) (rawPath : string) : bool :=
  let reqSegs := reqSegsOf rawPath in
  if negb (length reqSegs =? length tplSegs)%nat then false
  else pathMatch_loop reqSegs 0 tplSegs.

(** [queryMatch]: the [range] over the map visits the entries in an
    unspecified order; the loop returns [false] at the first entry whose
    required value differs from [urlVals.Get(k)]. *)
Definition queryMatch (tpl : gmap string string) (urlVals : Values) : bool :=
  if (size tpl =? 0)%nat then true
  else forallb (fun kv => String.eqb (Values_Get urlVals kv.1) kv.2) (map_to_list tpl).

(** ** Errors, panics and [net]

    A Go [error] is either a plain message or, as built by [fmt.Errorf]
    with the verb [%w], a message that wraps the error it was made from. *)

Inductive error : Type :=
  | errorString (msg : string)
  | wrapError (msg : string) (err : error).

(** The [Error()] method. *)
Definition Error_ (e : error) : string :=
  match e with
  | errorString msg => msg
  | wrapError msg _ => msg
  end.

(** [errors.Unwrap]. *)
Definition Unwrap (e : error) : option error :=
  match e with
  | errorString _ => None
  | wrapError _ err => Some err
  end.

(** A call either returns or panics. *)
Inductive outcome (A : Type) : Type :=
  | Returned (a : A)
  | Panicked (msg : string).
Arguments Returned {A} a.
Arguments Panicked {A} msg.

Record Listener : Type := { Addr : string }.

(** [net.JoinHostPort]. *)
Definition net_JoinHostPort (host port : string) : string :=
  if strings_ContainsByte host colon then "[" ++ host ++ "]:" ++ port
  else host ++ ":" ++ port.

(** ** [net/http] and [net/http/httptest] *)

Definition http_MethodGet : string := "GET".
Definition http_MethodPost : string := "POST".
Definition http_StatusOK : Z := 200.
Definition http_StatusCreated : Z := 201.
Definition http_StatusBadRequest : Z := 400.
Definition http_StatusNotFound : Z := 404.
Definition http_StatusMethodNotAllowed : Z := 405.

(** [http.StatusText], on the codes the server uses. *)
Definition http_StatusText (code : Z) : string :=
  if (code =? 200)%Z then "OK"
  else if (code =? 201)%Z then "Created"
  else if (code =? 400)%Z then "Bad Request"
  else if (code =? 404)%Z then "Not Found"
  else if (code =? 405)%Z then "Method Not Allowed"
  else "".

(** The fields of [*http.Request] the server reads: [r.Method],
    [r.URL.Path], [r.URL.Query()] and the bytes of [r.Body]. *)
Record Request : Type := {
  Method : string;
  URL_Path : string;
  URL_Query : Values;
  Body : string
}.

(** [httptest.ResponseRecorder], the [http.ResponseWriter] of the tests. *)
Record ResponseRecorder : Type := {
  Code : Z;
  HeaderMap : gmap string string;
  RespBody : string;
  wroteHeader : bool
}.

Definition NewRecorder : ResponseRecorder :=
  {| Code := 200; HeaderMap := ∅; RespBody := ""; wroteHeader := false |}.

(** [checkWriteHeaderCode]: Go's [WriteHeader] panics for a code below 100
    or above 999. *)
Definition checkWriteHeaderCode (code : Z) : bool :=
  ((100 <=? code) && (code <=? 999))%Z.

(** [w.WriteHeader(code)]: only the first call sets the status.  The model
    covers the codes that pass [checkWriteHeaderCode], the only ones the
    server's own calls use; what is proved of a status that comes from a
    payload assumes that it passes. *)
Definition WriteHeader (code : Z) (w : ResponseRecorder) : ResponseRecorder :=
  if wroteHeader w then w
  else {| Code := code; HeaderMap := HeaderMap w; RespBody := RespBody w;
          wroteHeader := true |}.

(** [w.Write(buf)]: writes the header with status 200 if none was written. *)
Definition Write (buf : string) (w : ResponseRecorder) : ResponseRecorder :=
  let w1 := WriteHeader 200 w in
  {| Code := Code w1; HeaderMap := HeaderMap w1; RespBody := RespBody w1 ++ buf;
     wroteHeader := wroteHeader w1 |}.

(** [w.Header()[key] = value] and [delete(w.Header(), key)], on a key in
    canonical form. *)
Definition Header_put (key value : string) (w : ResponseRecorder) : ResponseRecorder :=
  {| Code := Code w; HeaderMap := <[key := value]> (HeaderMap w);
     RespBody := RespBody w; wroteHeader := wroteHeader w |}.

Definition Header_Del (key : string) (w : ResponseRecorder) : ResponseRecorder :=
  {| Code := Code w; HeaderMap := delete key (HeaderMap w);
     RespBody := RespBody w; wroteHeader := wroteHeader w |}.

Definition LF : string := String (ascii_of_nat 10) EmptyString.

(** [http.Error(w, error, code)]. *)
Definition http_Error (w : ResponseRecorder) (err : string) (code : Z) : ResponseRecorder :=
  let w1 := Header_Del "Content-Length" w in
  let w2 := Header_put "Content-Type" "text/plain; charset=utf-8" w1 in
  let w3 := Header_put "X-Content-Type-Options" "nosniff" w2 in
  Write (err ++ LF) (WriteHeader code w3).

(** [http.NotFound(w, r)]. *)
Definition http_NotFound (w : ResponseRecorder) : ResponseRecorder :=
  http_Error w "404 page not found" http_StatusNotFound.

(** The paths that [http.ServeMux] hands to a handler as they are, those
    with [cleanPath(p) == p]: a leading slash, no empty segment before the
    last one, and no segment ["."] or [".."].  For any other path the mux
    answers with a redirect to the clean path. *)
Fixpoint cleanSegments (segs : list string) : bool :=
  match segs with
  | [] => true
  | [seg] => negb (String.eqb seg ".") && negb (String.eqb seg "..")
  | seg :: rest =>
      negb (String.eqb seg "") && negb (String.eqb seg ".") &&
      negb (String.eqb seg "..") && cleanSegments rest
  end.

Definition isCleanPath (p : string) : bool :=
  match p with
  | String a rest => Ascii.eqb a slash && cleanSegments (strings_Split rest slash)
  | EmptyString => false
  end.

(** ** stubsrv.go: the payload of the control plane *)

Module DynamicHandlerSpec.
Record t : Type := {
  Method : string;
  Path : string;
  Query : gmap string string;
  Status : Z;
  Body : string;
  Headers : gmap string string
}.
End DynamicHandlerSpec.

(** ** What the server takes from its host

    The state that the closures of the user's handlers capture, and the
    library functions whose results the server only passes on:
    [strings.ToUpper], the key form of [http.Header.Set], and the decoding of
    a request body by [json.NewDecoder(r.Body).Decode(&spec)]. *)
Class Host : Type := {
  HandlerState : Type;
  strings_ToUpper : string -> string;
  textproto_CanonicalMIMEHeaderKey : string -> string;
  json_Decode : string -> DynamicHandlerSpec.t + error
}.

(** [strings.ToUpper] on ASCII strings, for the concrete runs. *)
Definition upperByte (a : ascii) : ascii :=
  let n := nat_of_ascii a in
  if ((97 <=? n) && (n <=? 122))%nat then ascii_of_nat (n - 32) else a.

Fixpoint asciiToUpper (s : string) : string :=
  match s with
  | EmptyString => EmptyString
  | String a s' => String (upperByte a) (asciiToUpper s')
  end.

Section Stubsrv.
Context `{host : Host}.

(** What a handler acts on: the response writer and the captured state. *)
Record World : Type := { resp : ResponseRecorder; env : HandlerState }.

Definition onResp (f : ResponseRecorder -> ResponseRecorder) (w : World) : World :=
  {| resp := f (resp w); env := env w |}.

(** [http.Handler]: [ServeHTTP(w, r)]. *)
Definition Handler : Type := Request -> World -> World.

(** ** middleware.go *)

Definition Middleware : Type := Handler -> Handler.

(** The loop [for i := len(mws) - 1; i >= 0; i-- { h = mws[i](h) }], with
    [n] the number of middlewares still to apply, so that [i = n - 1]. *)
Fixpoint chainMiddleware_loop (mws : list Middleware) (n : nat) (h : Handler) : Handler :=
  match n with
  | O => h
  | S i =>
      match mws !! i with
      | Some mw => chainMiddleware_loop mws i (mw h)
      | None => h (* index out of range: never, since [n <= len(mws)] *)
      end
  end.

Definition chainMiddleware (h : Handler) (mws : list Middleware) : Handler :=
  chainMiddleware_loop mws (length mws) h.

(** The shape of the middlewares of middleware_test.go: work before the
    next handler, the call [next.ServeHTTP(w, r)], work after it. *)
Definition around (before after : Request -> World -> World) : Middleware :=
  fun next r w => after r (next r (before r w)).

(** [shortCircuitingMiddleware] of middleware_test.go: it answers by itself
    and never calls [next.ServeHTTP]. *)
Definition shortCircuit (answer : Handler) : Middleware := fun _ => answer.

(** ** stubsrv.go: the registry *)

Record routeInfo : Type := {
  handler : Handler;
  middlewares : list Middleware
}.

Record templateRoute : Type := {
  method : string;
  segments : list string;
  queries : gmap string string;
  info : routeInfo
}.

(** The handlers that [NewStub] registers on the mux are methods of the stub
    itself; the mux holds which one, under which pattern. *)
Inductive muxHandler : Type := controlAddHandlerFn | readyzFn | dispatchFn.

Definition ServeMux : Type := list (string * muxHandler).

Definition http_NewServeMux : ServeMux := [].

Definition HandleFunc (pattern : string) (h : muxHandler) (m : ServeMux) : ServeMux :=
  (m ++ [(pattern, h)])%list.

(** [httptest.Server]: the listener, [Config.Handler], the URL set by
    [Start()] and whether [Close()] was called. *)
Record httptest_Server : Type := {
  srvListener : Listener;
  srvHandler : option ServeMux;
  srvURL : string;
  srvClosed : bool
}.

(** [Stub], without the logger and the mutex: the model runs one method at
    a time. *)
Record Stub : Type := {
  routers : gmap string routeInfo;
  templateRoutes : list templateRoute;
  baseURL : string;
  port : string;
  Server : option httptest_Server;
  mux : option ServeMux;
  closed : bool
}.

Definition defaultPort : string := "8008".

Record stubConfig : Type := { cfg_port : string }.

Definition Option : Type := stubConfig -> stubConfig.

Definition WithPort (p : string) : Option := fun _ => {| cfg_port := p |}.

(** [NewStub]: the port written first, [defaultPort], is overwritten by
    [cfg.port], which is empty unless an option sets it; the mux gets the
    control plane, the readiness probe and the dispatcher. *)
Definition NewStub (opts : list Option) : Stub :=
  let cfg := fold_left (fun cfg opt => opt cfg) opts {| cfg_port := "" |} in
  let m := HandleFunc "/_control/handlers" controlAddHandlerFn http_NewServeMux in
  let m := HandleFunc "/readyz" readyzFn m in
  let m := HandleFunc "/" dispatchFn m in
  {| routers := ∅; templateRoutes := []; baseURL := ""; port := cfg_port cfg;
     Server := None; mux := Some m; closed := false |}.

Definition AddHandler (s : Stub) (method_ path : string) (handlerFunc : Handler)
    (mws : list Middleware) : outcome Stub :=
  if closed s then Panicked "cannot add handlers on a closed stub server"
  else
    let upperMethod := strings_ToUpper method_ in
    let ri := {| handler := handlerFunc; middlewares := mws |} in
    if strings_ContainsByte path colon then
      let tr := {| method := upperMethod;
                   segments := strings_Split (strings_Trim path slash) slash;
                   queries := ∅;
                   info := ri |} in
      Returned {| routers := routers s; templateRoutes := (templateRoutes s ++ [tr])%list;
                  baseURL := baseURL s; port := port s; Server := Server s;
                  mux := mux s; closed := closed s |}
    else
      let key := upperMethod ++ " " ++ path in
      Returned {| routers := <[key := ri]> (routers s);
                  templateRoutes := templateRoutes s;
                  baseURL := baseURL s; port := port s; Server := Server s;
                  mux := mux s; closed := closed s |}.

(** ** stubsrv.go: the life cycle *)

(** [Start]; [listen] is [net.Listen] as the operating system answers it at
    the time of the call.  The result is the stub afterwards and the error
    returned ([None] for [nil]). *)
Definition Start (listen : string -> string -> Listener + error) (s : Stub)
    : Stub * option error :=
  match Server s with
  | Some _ => (s, Some (errorString "stub server is already started"))
  | None =>
      let listenAddr := net_JoinHostPort "" (port s) in
      match listen "tcp" listenAddr with
      | inr err =>
          ({| routers := routers s; templateRoutes := templateRoutes s;
              baseURL := baseURL s; port := port s; Server := Server s;
              mux := None; closed := closed s |},
           Some (wrapError ("could not listen on " ++ listenAddr ++ ": " ++ Error_ err) err))
      | inl ln =>
          let srv := {| srvListener := ln; srvHandler := mux s;
                        srvURL := "http://" ++ Addr ln; srvClosed := false |} in
          ({| routers := routers s; templateRoutes := templateRoutes s;
              baseURL := srvURL srv; port := port s; Server := Some srv;
              mux := mux s; closed := closed s |},
           None)
      end
  end.

(** [s.Server.Close()]. *)
Definition Server_Close (srv : httptest_Server) : httptest_Server :=
  {| srvListener := srvListener srv; srvHandler := srvHandler srv;
     srvURL := srvURL srv; srvClosed := true |}.

Definition Close (s : Stub) : Stub :=
  match Server s with
  | Some srv =>
      if negb (closed s) then
        {| routers := routers s; templateRoutes := templateRoutes s;
           baseURL := baseURL s; port := port s; Server := Some (Server_Close srv);
           mux := mux s; closed := true |}
      else s
  | None => s
  end.

Definition URL (s : Stub) : string :=
  match Server s with
  | None => ""
  | Some _ => if closed s then "" else baseURL s
  end.

(** What the methods of the stub keep true of its life-cycle fields: before
    the start the stub is not closed and has no base URL; after it the base
    URL is the URL of the server, made from the address of its listener, and
    the server is closed exactly when the stub is. *)
Definition lifecycleInvariant (s : Stub) : Prop :=
  match Server s with
  | None => closed s = false /\ baseURL s = ""
  | Some srv =>
      baseURL s = srvURL srv /\
      srvURL srv = "http://" ++ Addr (srvListener srv) /\
      srvClosed srv = closed s
  end.

(** ** stubsrv.go: the control plane *)

(** The closure [responseHandler] built by [controlAddHandler]: the headers
    of the payload, its status, then its body when there is one. *)
Definition responseHandler (spec : DynamicHandlerSpec.t) : Handler :=
  fun _ w =>
    onResp (fun rec =>
      let rec1 := map_fold
                    (fun k v acc => Header_put (textproto_CanonicalMIMEHeaderKey k) v acc)
                    rec (DynamicHandlerSpec.Headers spec) in
      let rec2 := WriteHeader (DynamicHandlerSpec.Status spec) rec1 in
      if negb (String.eqb (DynamicHandlerSpec.Body spec) "")
      then Write (DynamicHandlerSpec.Body spec) rec2
      else rec2) w.

(** [if spec.Status == 0 { spec.Status = http.StatusOK }]. *)
Definition defaultStatus (spec : DynamicHandlerSpec.t) : DynamicHandlerSpec.t :=
  if (DynamicHandlerSpec.Status spec =? 0)%Z then
    {| DynamicHandlerSpec.Method := DynamicHandlerSpec.Method spec;
       DynamicHandlerSpec.Path := DynamicHandlerSpec.Path spec;
       DynamicHandlerSpec.Query := DynamicHandlerSpec.Query spec;
       DynamicHandlerSpec.Status := http_StatusOK;
       DynamicHandlerSpec.Body := DynamicHandlerSpec.Body spec;
       DynamicHandlerSpec.Headers := DynamicHandlerSpec.Headers spec |}
  else spec.

(** [controlAddHandler]: the stub and the response writer afterwards. *)
Definition controlAddHandler (s : Stub) (r : Request) (w : ResponseRecorder)
    : Stub * ResponseRecorder :=
  if negb (String.eqb (Method r) http_MethodPost) then
    (s, http_Error w (http_StatusText http_StatusMethodNotAllowed)
          http_StatusMethodNotAllowed)
  else
    match json_Decode (Body r) with
    | inr err => (s, http_Error w ("invalid JSON: " ++ Error_ err) http_StatusBadRequest)
    | inl decoded =>
        if String.eqb (DynamicHandlerSpec.Method decoded) "" ||
           String.eqb (DynamicHandlerSpec.Path decoded) ""
        then (s, http_Error w "method and path are required" http_StatusBadRequest)
        else
          let spec := defaultStatus decoded in
          let ri := {| handler := responseHandler spec; middlewares := [] |} in
          if strings_ContainsByte (DynamicHandlerSpec.Path spec) colon ||
             (0 <? size (DynamicHandlerSpec.Query spec))%nat
          then
            let tr := {| method := strings_ToUpper (DynamicHandlerSpec.Method spec);
                         segments := strings_Split
                                       (strings_Trim (DynamicHandlerSpec.Path spec) slash)
                                       slash;
                         queries := DynamicHandlerSpec.Query spec;
                         info := ri |} in
            ({| routers := routers s; templateRoutes := (templateRoutes s ++ [tr])%list;
                baseURL := baseURL s; port := port s; Server := Server s;
                mux := mux s; closed := closed s |},
             WriteHeader http_StatusCreated w)
          else
            let key := strings_ToUpper (DynamicHandlerSpec.Method spec) ++ " " ++
                       DynamicHandlerSpec.Path spec in
            ({| routers := <[key := ri]> (routers s);
                templateRoutes := templateRoutes s;
                baseURL := baseURL s; port := port s; Server := Server s;
                mux := mux s; closed := closed s |},
             WriteHeader http_StatusCreated w)
    end.

(** ** stubsrv.go: the dispatcher *)

(** What [dispatch] decides while it holds the lock: the composed handler
    it will run, or which of the two failures it will answer. *)
Inductive resolution : Type :=
  | Serve (final : Handler)
  | MethodNotAllowed
  | NotFound.

Definition dispatchKey (r : Request) : string :=
  strings_ToUpper (Method r) ++ " " ++ URL_Path r.

(** The first loop over [s.templateRoutes]: the first route with the
    request's method whose path and query match. *)
Fixpoint templateScan (r : Request) (trs : list templateRoute) : option Handler :=
  match trs with
  | [] => None
  | tr :: rest =>
      if negb (String.eqb (method tr) (Method r)) then templateScan r rest
      else if negb (pathMatch (segments tr) (URL_Path r)) then templateScan r rest
      else if negb (queryMatch (queries tr) (URL_Query r)) then templateScan r rest
      else Some (chainMiddleware (handler (info tr)) (middlewares (info tr)))
  end.

(** The loop over the keys of [s.routers]:
    some key ends with [" " + r.URL.Path]. *)
Definition exactPathKnown (rts : gmap string routeInfo) (targetPath : string) : bool :=
  existsb (fun kv => strings_HasSuffix kv.1 targetPath) (map_to_list rts).

(** The second loop over [s.templateRoutes]: some route matches path and
    query; the method is not looked at. *)
Fixpoint templatePathKnown (r : Request) (trs : list templateRoute) : bool :=
  match trs with
  | [] => false
  | tr :: rest =>
      if negb (pathMatch (segments tr) (URL_Path r)) then templatePathKnown r rest
      else if negb (queryMatch (queries tr) (URL_Query r)) then templatePathKnown r rest
      else true
  end.

Definition resolve (s : Stub) (r : Request) : resolution :=
  let key := dispatchKey r in
  match routers s !! key with
  | Some ri => Serve (chainMiddleware (handler ri) (middlewares ri))
  | None =>
      match templateScan r (templateRoutes s) with
      | Some final => Serve final
      | None =>
          let targetPath := " " ++ URL_Path r in
          let methodMismatch := exactPathKnown (routers s) targetPath in
          let methodMismatch :=
            if negb methodMismatch then templatePathKnown r (templateRoutes s)
            else methodMismatch in
          if methodMismatch then MethodNotAllowed else NotFound
      end
  end.

Definition dispatch (s : Stub) (r : Request) (w : World) : World :=
  match resolve s r with
  | Serve final => final r w
  | MethodNotAllowed =>
      onResp (fun rec => http_Error rec (http_StatusText http_StatusMethodNotAllowed)
                           http_StatusMethodNotAllowed) w
  | NotFound => onResp http_NotFound w
  end.

(** ** The mux built by [NewStub], serving a request *)

(** The readiness probe registered by [NewStub]. *)
Definition readyz : Handler :=
  fun r w =>
    if negb (String.eqb (Method r) http_MethodGet) then
      onResp (fun rec => http_Error rec (http_StatusText http_StatusMethodNotAllowed)
                           http_StatusMethodNotAllowed) w
    else onResp (fun rec => Write "ok" (WriteHeader http_StatusOK rec)) w.

(** Pattern matching of [http.ServeMux] on the three patterns in use: a
    pattern equal to the path, else the root pattern ["/"].  This is the
    choice of the mux for the paths that pass [isCleanPath]; its redirects
    for the other paths are left out, and what is proved of a path that is
    not fixed assumes that it is clean. *)
Definition mux_match (m : ServeMux) (path : string) : option muxHandler :=
  match find (fun e => String.eqb e.1 path) m with
  | Some e => Some e.2
  | None =>
      match find (fun e => String.eqb e.1 "/") m with
      | Some e => Some e.2
      | None => None
      end
  end.

(** [Config.Handler.ServeHTTP(w, r)] of the running server, where the
    handler is the [*http.ServeMux] the server was created with: calling it
    through a nil mux panics. *)
Definition Server_ServeHTTP (srv : httptest_Server) (s : Stub) (r : Request) (w : World)
    : outcome (Stub * World) :=
  match srvHandler srv with
  | None => Panicked "runtime error: invalid memory address or nil pointer dereference"
  | Some m =>
      match mux_match m (URL_Path r) with
      | Some controlAddHandlerFn =>
          let '(s', rec) := controlAddHandler s r (resp w) in
          Returned (s', {| resp := rec; env := env w |})
      | Some readyzFn => Returned (s, readyz r w)
      | Some dispatchFn => Returned (s, dispatch s r w)
      | None => Returned (s, onResp http_NotFound w)
      end
  end.

End Stubsrv.

(** ** stubsrv.go, the earlier variant: [Start] builds the mux itself

    In this variant the stub has no mux until [Start] creates one from the
    exact routes, grouped by path; the port is an option of [Start]. *)

Module Legacy.
Section Legacy.
Context `{host : Host}.

(** The mux holds, per path, the routes by method that the closure
    registered for that path looks up. *)
Definition ServeMux : Type := list (string * gmap string routeInfo).

Record httptest_Server : Type := {
  srvListener : Listener;
  srvHandler : option ServeMux;
  srvURL : string;
  srvClosed : bool
}.

Record Stub : Type := {
  routers : gmap string routeInfo;
  baseURL : string;
  Server : option httptest_Server;
  mux : option ServeMux;
  closed : bool
}.

Record startConfig : Type := { cfg_port : string }.

Definition StartOption : Type := startConfig -> startConfig.

Definition WithPort (p : string) : StartOption := fun _ => {| cfg_port := p |}.

(** [strings.SplitN(key, " ", 2)], as [parts[0], parts[1]]: the text before
    and after the first space; there is no [parts[1]] without a space. *)
Fixpoint splitFirstSpace (key : string) : option (string * string) :=
  match key with
  | EmptyString => None
  | String a rest =>
      if Ascii.eqb a " "%char then Some (EmptyString, rest)
      else match splitFirstSpace rest with
           | Some (m, p) => Some (String a m, p)
           | None => None
           end
  end.

(** The loop that fills [byPath]. *)
Definition groupByPath (rts : gmap string routeInfo)
    : outcome (gmap string (gmap string routeInfo)) :=
  map_fold
    (fun key ri acc =>
       match acc with
       | Panicked msg => Panicked msg
       | Returned byPath =>
           match splitFirstSpace key with
           | None => Panicked "runtime error: index out of range [1] with length 1"
           | Some (m, p) =>
               Returned (<[p := <[m := ri]> (default ∅ (byPath !! p))]> byPath)
           end
       end)
    (Returned ∅) rts.

(** The loop [for path, methodMap := range byPath] that registers one
    closure per path with [s.mux.HandleFunc(path, ...)].  [HandleFunc]
    panics on a pattern it does not accept; [handleFuncPanic registered
    pattern] is that panic, if any, on a mux that holds the patterns
    [registered] (an empty or an already registered pattern, and since Go
    1.22 also a pattern that does not parse or that conflicts with a
    registered one). *)
Definition registerPaths (handleFuncPanic : list string -> string -> option string)
    (entries : list (string * gmap string routeInfo)) : outcome ServeMux :=
  fold_left
    (fun acc entry =>
       match acc with
       | Panicked msg => Panicked msg
       | Returned m =>
           match handleFuncPanic (map fst m) (fst entry) with
           | Some msg => Panicked msg
           | None => Returned (m ++ [entry])%list
           end
       end)
    entries (Returned []).

(** [Start(opts...)]: the grouping, the registration of the paths, then the
    listener; [listen] is [net.Listen] as the operating system answers it
    at the time of the call. *)
Definition Start (handleFuncPanic : list string -> string -> option string)
    (listen : string -> string -> Listener + error)
    (opts : list StartOption) (s : Stub) : outcome (Stub * option error) :=
  match mux s, Server s with
  | None, None =>
      let cfg := fold_left (fun cfg opt => opt cfg) opts {| cfg_port := "" |} in
      match groupByPath (routers s) with
      | Panicked msg => Panicked msg
      | Returned byPath =>
          match registerPaths handleFuncPanic (map_to_list byPath) with
          | Panicked msg => Panicked msg
          | Returned m =>
              let listenAddr := net_JoinHostPort "" (cfg_port cfg) in
              match listen "tcp" listenAddr with
              | inr err =>
                  (* reset the mux to ensure a clean state *)
                  Returned
                    ({| routers := routers s; baseURL := baseURL s; Server := Server s;
                        mux := None; closed := closed s |},
                     Some (wrapError
                             ("could not listen on " ++ listenAddr ++ ": " ++ Error_ err)
                             err))
              | inl ln =>
                  let srv := {| srvListener := ln; srvHandler := Some m;
                                srvURL := "http://" ++ Addr ln; srvClosed := false |} in
                  Returned
                    ({| routers := routers s; baseURL := srvURL srv; Server := Some srv;
                        mux := Some m; closed := closed s |},
                     None)
              end
          end
      end
  | _, _ => Returned (s, Some (errorString "stub server is already started"))
  end.

(** The paths under which the stub holds a route, and what it means that
    [HandleFunc] accepts them all: it does not panic for a path of the stub
    on a mux that holds other paths of the stub. *)
Definition isPath (s : Stub) (p : string) : Prop :=
  exists key ri m, routers s !! key = Some ri /\ splitFirstSpace key = Some (m, p).

Definition acceptsPaths (handleFuncPanic : list string -> string -> option string)
    (s : Stub) : Prop :=
  forall registered p,
    isPath s p -> (forall q, q ∈ registered -> isPath s q) -> p ∉ registered ->
    handleFuncPanic registered p = None.

(** The closure that [Start] registers for a path: it looks the request's
    method up among the routes of that path. *)
Definition pathHandler (localMethodMap : gmap string routeInfo) : Handler :=
  fun r w =>
    match localMethodMap !! Method r with
    | None =>
        onResp (fun rec => http_Error rec (http_StatusText http_StatusMethodNotAllowed)
                             http_StatusMethodNotAllowed) w
    | Some ri => chainMiddleware (handler ri) (middlewares ri) r w
    end.

Definition AddHandler (s : Stub) (method_ path : string) (handlerFunc : Handler)
    (mws : list Middleware) : outcome Stub :=
  match Server s with
  | Some _ => Panicked "Cannot add handlers after the server has started."
  | None =>
      let key := strings_ToUpper method_ ++ " " ++ path in
      Returned {| routers := <[key := {| handler := handlerFunc; middlewares := mws |}]>
                               (routers s);
                  baseURL := baseURL s; Server := Server s; mux := mux s;
                  closed := closed s |}
  end.

(** [NewStub]: an empty stub on which the readiness probe is registered as
    an ordinary route. *)
Definition NewStub : Stub :=
  let s := {| routers := ∅; baseURL := ""; Server := None; mux := None;
              closed := false |} in
  match AddHandler s http_MethodGet "/readyz"
          (fun _ w => onResp (fun rec => Write "ok" (WriteHeader http_StatusOK rec)) w) []
  with
  | Returned s' => s'
  | Panicked _ => s
  end.

End Legacy.
End Legacy.

(** ** A concrete host for the runs

    Handlers record what they do in a list of strings, as the closures of
    the middleware tests append to [execOrder]; methods are upper-cased
    bytewise; header keys are taken in canonical form already; the decoder
    knows three request bodies, named by what they hold, and rejects every
    other one. *)
Definition decodeForRuns (body : string) : DynamicHandlerSpec.t + error :=
  if String.eqb body "dynamic-without-status" then
    inl {| DynamicHandlerSpec.Method := "get"; DynamicHandlerSpec.Path := "/dynamic";
           DynamicHandlerSpec.Query := ∅; DynamicHandlerSpec.Status := 0;
           DynamicHandlerSpec.Body := "created"; DynamicHandlerSpec.Headers := ∅ |}
  else if String.eqb body "without-path" then
    inl {| DynamicHandlerSpec.Method := "GET"; DynamicHandlerSpec.Path := "";
           DynamicHandlerSpec.Query := ∅; DynamicHandlerSpec.Status := 201;
           DynamicHandlerSpec.Body := ""; DynamicHandlerSpec.Headers := ∅ |}
  else if String.eqb body "orders-shipped" then
    inl {| DynamicHandlerSpec.Method := "GET";
           DynamicHandlerSpec.Path := "/users/:id/orders/:orderId";
           DynamicHandlerSpec.Query := {[ "status" := "shipped" ]};
           DynamicHandlerSpec.Status := 200;
           DynamicHandlerSpec.Body := "matched"; DynamicHandlerSpec.Headers := ∅ |}
  else inr (errorString "invalid character 'x' looking for beginning of value").

Definition traceHost : Host :=
  {| HandlerState := list string;
     strings_ToUpper := asciiToUpper;
     textproto_CanonicalMIMEHeaderKey := fun k => k;
     json_Decode := decodeForRuns |}.

(** [execOrder = append(execOrder, name)]. *)
Definition appendExec (name : string) : Request -> @World traceHost -> @World traceHost :=
  fun _ w => @Build_World traceHost (resp w) ((env w : list string) ++ [name])%list.

(** The handler and the middlewares of "multiple middleware in correct
    order" and of "middleware can short-circuit handler execution". *)
Definition testHandler : @Handler traceHost := appendExec "handler".
Definition middleware1 : @Middleware traceHost :=
  around (appendExec "middleware1-before") (appendExec "middleware1-after").
Definition middleware2 : @Middleware traceHost :=
  around (appendExec "middleware2-before") (appendExec "middleware2-after").
Definition shortCircuitingMiddleware : @Middleware traceHost :=
  shortCircuit (fun _ w => onResp (WriteHeader 401) w).

Definition testRequest (m path : string) : Request :=
  {| Method := m; URL_Path := path; URL_Query := ∅; Body := "" |}.

Definition freshWorld : @World traceHost :=
  @Build_World traceHost NewRecorder ([] : list string).

(** A POST to the control plane. *)
Definition controlRequest (body : string) : Request :=
  {| Method := "POST"; URL_Path := "/_control/handlers"; URL_Query := ∅; Body := body |}.

(** The stub of TestStub_TemplateRouteMatching, after the control plane has
    registered the templated route with its query constraint. *)
Definition ordersStub : @Stub traceHost :=
  fst (controlAddHandler (NewStub []) (controlRequest "orders-shipped") NewRecorder).


Definition ordersRequest (m status : string) : Request :=
  {| Method := m; URL_Path := "/users/42/orders/24";
     URL_Query := {[ "status" := [status] ]}; Body := "" |}.

(** The panics of [HandleFunc] up to Go 1.21: an empty pattern, and a
    pattern that the mux holds already. *)
Definition handleFuncPanic121 (registered : list string) (pattern : string)
    : option string :=
  if String.eqb pattern "" then Some "http: invalid pattern"
  else if existsb (String.eqb pattern) registered
       then Some ("http: multiple registrations for " ++ pattern)
       else None.

(** [net.Listen] while another process holds the port, and once the port
    is free. *)
Definition listenOccupied : string -> string -> Listener + error :=
  fun _ addr =>
    inr (errorString ("listen tcp " ++ addr ++ ": bind: address already in use")).

Definition listenFree : string -> string -> Listener + error :=
  fun _ addr => inl {| Addr := "[::]" ++ addr |}.

(** The second stub of "fails to start on occupied port". *)
Definition secondStub : @Stub traceHost := NewStub [WithPort "12345"].

(** The value a call returned, where it is known not to panic. *)
Definition returned {A : Type} (o : outcome A) (otherwise : A) : A :=
  match o with
  | Returned a => a
  | Panicked _ => otherwise
  end.

(** The stub of TestStub_Dispatch: [GET /foo] answers 200. *)
Definition dispatchTestStub : @Stub traceHost :=
  returned
    (AddHandler (NewStub []) "GET" "/foo"
       (fun _ w => onResp (WriteHeader http_StatusOK) w) [])
    (NewStub []).

(** A stub where two templated routes that match [/foo] are registered
    before and after the exact route [GET /foo]. *)
Definition priorityStub : @Stub traceHost :=
  let s0 := NewStub [] in
  let s1 := returned (AddHandler s0 "get" "/:name" (appendExec "template-1") []) s0 in
  let s2 := returned (AddHandler s1 "GET" "/foo" (appendExec "exact") [middleware1]) s1 in
  returned (AddHandler s2 "GET" "/:other" (appendExec "template-2") []) s2.

(** * Properties *)

(** *** The unit tests of the matchers *)

Example pathMatch_test_exact :
  pathMatch ["users"; "42"; "orders"] "/users/42/orders" = true.
Proof. reflexivity. Qed.

Example pathMatch_test_params :
  pathMatch ["users"; ":id"; "orders"; ":orderId"] "/users/99/orders/123" = true.
Proof. reflexivity. Qed.

Example pathMatch_test_segment_mismatch :
  pathMatch ["users"; "42"] "/accounts/42" = false.
Proof. reflexivity. Qed.

Example pathMatch_test_count_mismatch :
  pathMatch ["foo"; "bar"] "/foo/bar/baz" = false.
Proof. reflexivity. Qed.

Example queryMatch_test_empty :
  queryMatch ∅ {[ "foo" := ["1"] ]} = true.
Proof. reflexivity. Qed.

Example queryMatch_test_exact :
  queryMatch (<["status" := "shipped"]> {[ "type" := "expedited" ]})
             (<["status" := ["shipped"]]> {[ "type" := ["expedited"] ]}) = true.
Proof. vm_compute. reflexivity. Qed.

Example queryMatch_test_value_mismatch :
  queryMatch {[ "status" := "shipped" ]} {[ "status" := ["pending"] ]} = false.
Proof. vm_compute. reflexivity. Qed.

Example queryMatch_test_extra_params :
  queryMatch {[ "foo" := "1" ]} (<["foo" := ["1"]]> {[ "bar" := ["2"] ]}) = true.
Proof. vm_compute. reflexivity. Qed.

(** ** Properties of the string helpers *)

Lemma strings_Split_length (s : string) (c : ascii) :
  length (strings_Split s c) = S (countByte s c).
Proof.
  induction s as [|a s IH]; simpl; [reflexivity|].
  destruct (Ascii.eqb a c); simpl.
  - now rewrite IH.
  - destruct (strings_Split s c) as [|piece pieces]; simpl in *; lia.
Qed.

Lemma strings_Split_nonempty (s : string) (c : ascii) : strings_Split s c <> [].
Proof.
  intros H. pose proof (strings_Split_length s c) as L. rewrite H in L. discriminate.
Qed.

Lemma string_length_app (s1 s2 : string) :
  String.length (s1 ++ s2) = (String.length s1 + String.length s2)%nat.
Proof. induction s1 as [|a s1 IH]; simpl; [reflexivity|now rewrite IH]. Qed.

Lemma substring_whole (s : string) : String.substring 0 (String.length s) s = s.
Proof. induction s as [|a s IH]; simpl; [reflexivity|now rewrite IH]. Qed.

Lemma substring_app_r (pre suf : string) :
  String.substring (String.length pre) (String.length suf) (pre ++ suf) = suf.
Proof.
  induction pre as [|a pre IH]; simpl; [apply substring_whole|exact IH].
Qed.

(** The tail of a string from index [n] on, with what precedes it. *)
Lemma substring_tail_split (n : nat) (s : string) :
  (n <= String.length s)%nat ->
  exists pre, s = pre ++ String.substring n (String.length s - n) s.
Proof.
  revert s. induction n as [|n IH]; intros s Hn.
  - exists "". rewrite Nat.sub_0_r, substring_whole. reflexivity.
  - destruct s as [|a s]; simpl in Hn; [lia|].
    destruct (IH s ltac:(lia)) as [pre Hpre].
    exists (String a pre).
    change (String a s = String a (pre ++ String.substring n (String.length s - n) s)).
    now rewrite <- Hpre.
Qed.

Lemma strings_HasSuffix_spec (s suf : string) :
  strings_HasSuffix s suf = true <-> exists pre, s = pre ++ suf.
Proof.
  unfold strings_HasSuffix. rewrite andb_true_iff, Nat.leb_le, String.eqb_eq. split.
  - intros [Hlen Hsub].
    destruct (substring_tail_split (String.length s - String.length suf) s ltac:(lia))
      as [pre Hpre].
    exists pre.
    replace (String.length s - (String.length s - String.length suf))%nat
      with (String.length suf) in Hpre by lia.
    now rewrite Hsub in Hpre.
  - intros [pre ->]. rewrite string_length_app. split; [lia|].
    replace (String.length pre + String.length suf - String.length suf)%nat
      with (String.length pre) by lia.
    apply substring_app_r.
Qed.

(** ** Properties of the matchers *)

Lemma pathMatch_loop_spec (reqSegs tplSegs : list string) (i : nat) :
  pathMatch_loop reqSegs i tplSegs = true <->
  forall j seg, tplSegs !! j = Some seg ->
    strings_HasPrefix seg ":" = true \/ reqSegs !! (i + j)%nat = Some seg.
Proof.
  revert i. induction tplSegs as [|seg rest IH]; intros i; simpl.
  - split; [intros _ j seg' H; discriminate | reflexivity].
  - split.
    + intros H [|j] seg' Hj; simpl in Hj.
      * injection Hj as <-. rewrite Nat.add_0_r.
        destruct (strings_HasPrefix seg ":"); [now left|right].
        destruct (reqSegs !! i) as [rseg|]; [|discriminate].
        destruct (String.eqb_spec seg rseg) as [->|]; [reflexivity|discriminate].
      * replace (i + S j)%nat with (S i + j)%nat by lia.
        apply (proj1 (IH (S i))); [|exact Hj].
        destruct (strings_HasPrefix seg ":"); [exact H|].
        destruct (reqSegs !! i) as [rseg|]; [|discriminate].
        destruct (String.eqb seg rseg); [exact H|discriminate].
    + intros H.
      assert (Hrest : pathMatch_loop reqSegs (S i) rest = true).
      { apply IH. intros j seg' Hj.
        replace (S i + j)%nat with (i + S j)%nat by lia. now apply H. }
      destruct (H 0%nat seg eq_refl) as [Hp|Hr].
      * now rewrite Hp.
      * rewrite Nat.add_0_r in Hr. rewrite Hr, String.eqb_refl.
        now destruct (strings_HasPrefix seg ":").
Qed.

Lemma pathMatch_spec (tplSegs : list string) (rawPath : string) :
  pathMatch tplSegs rawPath = true <->
  length (reqSegsOf rawPath) = length tplSegs /\
  forall i seg, tplSegs !! i = Some seg ->
    strings_HasPrefix seg ":" = true \/ reqSegsOf rawPath !! i = Some seg.
Proof.
  unfold pathMatch. cbv zeta.
  destruct (Nat.eqb_spec (length (reqSegsOf rawPath)) (length tplSegs)) as [E|N]; simpl.
  - rewrite pathMatch_loop_spec. simpl. intuition.
  - split; [discriminate|intros [E _]; contradiction].
Qed.

Lemma queryMatch_spec (tpl : gmap string string) (urlVals : Values) :
  queryMatch tpl urlVals = true <->
  forall k v, tpl !! k = Some v -> Values_Get urlVals k = v.
Proof.
  unfold queryMatch.
  destruct (Nat.eqb_spec (size tpl) 0) as [E|_].
  - apply map_size_empty_inv in E. subst tpl.
    split; [intros _ k v H; rewrite lookup_empty in H; discriminate | reflexivity].
  - rewrite forallb_forall. split.
    + intros H k v Hk.
      apply String.eqb_eq, (H (k, v)), list_elem_of_In, elem_of_map_to_list, Hk.
    + intros H [k v] Hin. apply String.eqb_eq. simpl.
      apply H, elem_of_map_to_list, list_elem_of_In, Hin.
Qed.

Lemma queryMatch_false (tpl : gmap string string) (urlVals : Values) (k v : string) :
  tpl !! k = Some v -> Values_Get urlVals k <> v -> queryMatch tpl urlVals = false.
Proof.
  intros Hk Hne. destruct (queryMatch tpl urlVals) eqn:E; [|reflexivity].
  exfalso. apply Hne. exact (proj1 (queryMatch_spec tpl urlVals) E k v Hk).
Qed.

Lemma Values_Get_absent (urlVals : Values) (k : string) :
  urlVals !! k = None -> Values_Get urlVals k = "".
Proof. intros H. unfold Values_Get. now rewrite H. Qed.

Lemma Values_Get_first (urlVals : Values) (k x : string) (xs : list string) :
  urlVals !! k = Some (x :: xs) -> Values_Get urlVals k = x.
Proof. intros H. unfold Values_Get. now rewrite H. Qed.

(** *** The query subset law *)

(** C3, as the specification states it, fails: a required key that is absent
    from the actual query is still matched when its required value is the
    empty string, because [Values.Get] reads a missing key as [""]. *)
Lemma queryMatch_absent_key_not_always_rejected :
  ~ (forall (C : gmap string string) (Q : Values) (k v : string),
       C !! k = Some v ->
       (Q !! k = None \/ exists x xs, Q !! k = Some (x :: xs) /\ x <> v) ->
       queryMatch C Q = false).
Proof.
  intros H.
  specialize (H {[ "a" := "" ]} ∅ "a" "" eq_refl (or_introl eq_refl)).
  vm_compute in H. discriminate H.
Qed.

(** C3 (amended): an empty constraint mapping matches every query; a mapping
    all of whose keys appear in the query with an equal first value matches,
    whatever else the query holds; and the match fails as soon as some
    required key is absent from the query while its required value is not
    empty, or has a first value in the query that differs from the required
    one. *)
Theorem queryMatch_subset_law (C : gmap string string) (Q : Values) :
  (C = ∅ -> queryMatch C Q = true) /\
  ((forall k v, C !! k = Some v -> exists xs, Q !! k = Some (v :: xs)) ->
   queryMatch C Q = true) /\
  (forall k v, C !! k = Some v ->
     (Q !! k = None /\ v <> "") \/ (exists x xs, Q !! k = Some (x :: xs) /\ x <> v) ->
     queryMatch C Q = false).
Proof.
  split; [|split].
  - intros ->. reflexivity.
  - intros H. apply queryMatch_spec. intros k v Hk.
    destruct (H k v Hk) as [xs Hq]. exact (Values_Get_first _ _ _ _ Hq).
  - intros k v Hk [[Habs Hv]|(x & xs & Hq & Hx)].
    + apply (queryMatch_false C Q k v Hk). rewrite (Values_Get_absent _ _ Habs).
      intros E. apply Hv. now symmetry.
    + apply (queryMatch_false C Q k v Hk). now rewrite (Values_Get_first _ _ _ _ Hq).
Qed.

Lemma queryMatch_subset_law_witness :
  queryMatch ∅ {[ "foo" := ["1"] ]} = true /\
  queryMatch {[ "foo" := "1" ]} (<["foo" := ["1"; "9"]]> {[ "bar" := ["2"] ]}) = true /\
  queryMatch {[ "status" := "shipped" ]} ∅ = false /\
  queryMatch {[ "status" := "shipped" ]} {[ "status" := ["pending"] ]} = false.
Proof.
  split; [|split; [|split]].
  - apply (proj1 (queryMatch_subset_law ∅ {[ "foo" := ["1"] ]})). reflexivity.
  - apply (proj1 (proj2 (queryMatch_subset_law {[ "foo" := "1" ]}
             (<["foo" := ["1"; "9"]]> {[ "bar" := ["2"] ]})))).
    intros k v Hk. apply lookup_singleton_Some in Hk as [<- <-].
    exists ["9"]. reflexivity.
  - apply (proj2 (proj2 (queryMatch_subset_law {[ "status" := "shipped" ]} ∅))
             "status" "shipped"); [reflexivity|].
    left. split; [reflexivity|discriminate].
  - apply (proj2 (proj2 (queryMatch_subset_law {[ "status" := "shipped" ]}
                           {[ "status" := ["pending"] ]}))
             "status" "shipped"); [reflexivity|].
    right. exists "pending", []. split; [reflexivity|discriminate].
Defined.

(** *** A constraint with an empty required value *)

(** C10, as stated for every mapping that holds such a key, fails: the other
    constraints of the mapping still have to be met. *)
Lemma queryMatch_empty_value_other_constraints :
  ~ (forall (C : gmap string string) (Q : Values) (k : string),
       C !! k = Some "" -> Q !! k = None -> queryMatch C Q = true).
Proof.
  intros H.
  specialize (H (<["a" := ""]> {[ "b" := "1" ]}) ∅ "a" eq_refl eq_refl).
  vm_compute in H. discriminate H.
Qed.

(** C10 (amended): when the mapping requires the empty string for a key that
    is entirely absent from the actual query, that constraint is met (the
    missing key's first value reads as the empty string): [queryMatch]
    answers as it does for the mapping without that key, and so returns
    [true] when every other constraint is met, in particular when there is
    none. *)
Theorem queryMatch_empty_value_absent_key
    (C : gmap string string) (Q : Values) (k : string) :
  C !! k = Some "" -> Q !! k = None ->
  Values_Get Q k = "" /\
  queryMatch C Q = queryMatch (delete k C) Q /\
  ((forall k' v, k' <> k -> C !! k' = Some v -> Values_Get Q k' = v) ->
   queryMatch C Q = true) /\
  queryMatch {[ k := "" ]} Q = true.
Proof.
  intros Hk Habs.
  assert (G : Values_Get Q k = "") by exact (Values_Get_absent _ _ Habs).
  split; [exact G|]. split; [|split].
  - destruct (queryMatch (delete k C) Q) eqn:E.
    + apply queryMatch_spec. intros k' v Hk'.
      destruct (decide (k' = k)) as [->|Hne].
      * rewrite Hk in Hk'. injection Hk' as <-. exact G.
      * apply (proj1 (queryMatch_spec _ _) E). now rewrite lookup_delete_ne.
    + destruct (queryMatch C Q) eqn:E'; [|reflexivity].
      rewrite <- E. symmetry. apply queryMatch_spec. intros k' v Hk'.
      apply lookup_delete_Some in Hk' as [_ Hk'].
      exact (proj1 (queryMatch_spec _ _) E' k' v Hk').
  - intros Hothers. apply queryMatch_spec. intros k' v Hk'.
    destruct (decide (k' = k)) as [->|Hne].
    + rewrite Hk in Hk'. injection Hk' as <-. exact G.
    + now apply Hothers.
  - apply queryMatch_spec. intros k' v Hk'.
    apply lookup_singleton_Some in Hk' as [<- <-]. exact G.
Qed.

Lemma queryMatch_empty_value_absent_key_witness :
  queryMatch (<["a" := ""]> {[ "b" := "1" ]}) {[ "b" := ["1"] ]} = true.
Proof.
  refine (proj1 (proj2 (proj2 (queryMatch_empty_value_absent_key
           (<["a" := ""]> {[ "b" := "1" ]}) {[ "b" := ["1"] ]} "a" _ _))) _);
    [reflexivity|reflexivity|].
  intros k' v Hne Hk'.
  rewrite lookup_insert_ne in Hk' by (intros E; apply Hne; now symmetry).
  apply lookup_singleton_Some in Hk' as [<- <-]. reflexivity.
Defined.

(** *** Segment counts *)

(** C4: a request path whose trimmed and split form has a number of segments
    different from the template's never matches, whatever the template's
    segments are (placeholders or literals). *)
Theorem pathMatch_segment_count (tplSegs : list string) (rawPath : string) :
  length (strings_Split (strings_Trim rawPath slash) slash) <> length tplSegs ->
  pathMatch tplSegs rawPath = false.
Proof.
  intros Hlen. unfold pathMatch, reqSegsOf. cbv zeta.
  destruct (Nat.eqb_spec (length (strings_Split (strings_Trim rawPath slash) slash))
              (length tplSegs)) as [E|_]; [contradiction|reflexivity].
Qed.

Lemma pathMatch_segment_count_witness :
  pathMatch [":a"; ":b"] "/users/42/orders/" = false.
Proof.
  apply (pathMatch_segment_count [":a"; ":b"] "/users/42/orders/").
  simpl. lia.
Defined.

(** The number of request segments is one more than the number of slashes
    left after trimming. *)
Lemma reqSegsOf_length (rawPath : string) :
  length (reqSegsOf rawPath) = S (countByte (strings_Trim rawPath slash) slash).
Proof. apply strings_Split_length. Qed.

(** *** Placeholders and literals *)

(** C5, as stated, fails: a placeholder also accepts an empty request segment.
    The root path ["/"] trims to the empty string, which splits to one empty
    segment, and the one-placeholder template matches it. *)
Lemma pathMatch_placeholder_accepts_empty :
  ~ (forall (tplSegs : list string) (rawPath : string) (i : nat) (seg rseg : string),
       pathMatch tplSegs rawPath = true ->
       tplSegs !! i = Some seg -> strings_HasPrefix seg ":" = true ->
       reqSegsOf rawPath !! i = Some rseg ->
       rseg <> "").
Proof.
  intros H.
  apply (H [":id"] "/" 0%nat ":id" "" eq_refl eq_refl eq_refl eq_refl).
  reflexivity.
Qed.

(** C5 (amended): a template segment with the leading marker [":"] matches
    any request segment at its position, empty or not, unconditionally;
    every other template segment must equal the request segment at the same
    position.  With equal segment counts these are the only conditions. *)
Theorem pathMatch_placeholder_and_literal (tplSegs : list string) (rawPath : string) :
  pathMatch tplSegs rawPath = true <->
  length (reqSegsOf rawPath) = length tplSegs /\
  forall i seg, tplSegs !! i = Some seg ->
    strings_HasPrefix seg ":" = false -> reqSegsOf rawPath !! i = Some seg.
Proof.
  rewrite pathMatch_spec. split; intros [Hlen H]; (split; [exact Hlen|]).
  - intros i seg Hi Hlit. destruct (H i seg Hi) as [Hp|Hr]; [congruence|exact Hr].
  - intros i seg Hi. destruct (strings_HasPrefix seg ":") eqn:Hp; [now left|right].
    now apply H.
Qed.

Lemma pathMatch_placeholder_and_literal_witness :
  pathMatch ["users"; ":id"] "/users//" = false /\
  pathMatch ["users"; ":id"; "x"] "/users//x" = true /\
  (forall i seg, ["users"; "42"] !! i = Some seg ->
     strings_HasPrefix seg ":" = false -> reqSegsOf "/users/42" !! i = Some seg).
Proof.
  split; [reflexivity|]. split.
  - apply (proj2 (pathMatch_placeholder_and_literal ["users"; ":id"; "x"] "/users//x")).
    split; [reflexivity|].
    intros [|[|[|i]]] seg Hi Hlit; simpl in Hi; try discriminate;
      injection Hi as <-; [reflexivity|discriminate|reflexivity].
  - apply (proj1 (pathMatch_placeholder_and_literal ["users"; "42"] "/users/42")).
    reflexivity.
Defined.

(** ** The middleware chain *)

Section ChainProperties.
Context `{host : Host}.

Lemma chainMiddleware_loop_take (mws : list Middleware) (n : nat) (h : Handler) :
  (n <= length mws)%nat ->
  chainMiddleware_loop mws n h = foldr (fun mw next => mw next) h (take n mws).
Proof.
  revert h. induction n as [|i IH]; intros h Hn; cbn [chainMiddleware_loop].
  - reflexivity.
  - unfold Middleware in *.
    destruct (lookup_lt_is_Some_2 mws i ltac:(lia)) as [mw Hmw].
    rewrite Hmw, (take_S_r _ _ _ Hmw), foldr_app. cbn [foldr].
    apply IH. lia.
Qed.

(** The loop builds the nesting [mws[0](mws[1](... mws[n-1](h)))]. *)
Lemma chainMiddleware_nest (h : Handler) (mws : list Middleware) :
  chainMiddleware h mws = foldr (fun mw next => mw next) h mws.
Proof.
  unfold chainMiddleware.
  rewrite chainMiddleware_loop_take by lia. now rewrite firstn_all.
Qed.

Lemma chainMiddleware_nil (h : Handler) : chainMiddleware h [] = h.
Proof. reflexivity. Qed.

Lemma chainMiddleware_cons (h : Handler) (mw : Middleware) (mws : list Middleware) :
  chainMiddleware h (mw :: mws) = mw (chainMiddleware h mws).
Proof. now rewrite !chainMiddleware_nest. Qed.

Lemma chainMiddleware_app (h : Handler) (outer inner : list Middleware) :
  chainMiddleware h (outer ++ inner) = chainMiddleware (chainMiddleware h inner) outer.
Proof. now rewrite !chainMiddleware_nest, foldr_app. Qed.

Lemma chainMiddleware_around (h : Handler)
    (pps : list ((Request -> World -> World) * (Request -> World -> World)))
    (r : Request) (w : World) :
  chainMiddleware h (map (fun p => around p.1 p.2) pps) r w =
  foldr (fun p acc => p.2 r acc) (h r (fold_left (fun acc p => p.1 r acc) pps w)) pps.
Proof.
  revert w. induction pps as [|[before after] pps IH]; intros w; simpl.
  - reflexivity.
  - rewrite chainMiddleware_cons. unfold around at 1. simpl. now rewrite IH.
Qed.

(** C2: the composed handler nests the middlewares with the first registered
    outermost, so the work before the handler runs in registration order and
    the work after it in reverse order; for two middlewares the order is
    M1-before, M2-before, H, M2-after, M1-after; and a middleware whose
    result does not depend on its next link cuts off the inner middlewares
    and the terminal handler: the composed handler is the same whatever they
    are. *)
Theorem chainMiddleware_order (H : Handler) :
  (forall mws, chainMiddleware H mws = foldr (fun mw next => mw next) H mws) /\
  (forall (pps : list ((Request -> World -> World) * (Request -> World -> World))) r w,
     chainMiddleware H (map (fun p => around p.1 p.2) pps) r w =
     foldr (fun p acc => p.2 r acc)
           (H r (fold_left (fun acc p => p.1 r acc) pps w)) pps) /\
  (forall before1 after1 before2 after2 r w,
     chainMiddleware H [around before1 after1; around before2 after2] r w =
     after1 r (after2 r (H r (before2 r (before1 r w))))) /\
  (forall (outer inner : list Middleware) (mw : Middleware),
     (forall next next', mw next = mw next') ->
     forall (H' : Handler) (inner' : list Middleware),
       chainMiddleware H (outer ++ mw :: inner) = chainMiddleware (mw H') outer /\
       chainMiddleware H (outer ++ mw :: inner) =
       chainMiddleware H' (outer ++ mw :: inner')).
Proof.
  split; [|split; [|split]].
  - intros mws. apply chainMiddleware_nest.
  - intros pps r w. apply chainMiddleware_around.
  - intros before1 after1 before2 after2 r w.
    now rewrite !chainMiddleware_cons, chainMiddleware_nil.
  - intros outer inner mw Hskip H' inner'.
    rewrite !chainMiddleware_app, !chainMiddleware_cons.
    rewrite (Hskip (chainMiddleware H inner) H').
    rewrite (Hskip (chainMiddleware H' inner') H'). now split.
Qed.

End ChainProperties.

(** The run of "multiple middleware in correct order" and a short circuit
    between two logging middlewares. *)
Lemma chainMiddleware_order_witness :
  env (chainMiddleware testHandler [middleware1; middleware2]
         (testRequest "GET" "/") freshWorld) =
  ["middleware1-before"; "middleware2-before"; "handler";
   "middleware2-after"; "middleware1-after"] /\
  chainMiddleware testHandler [middleware1; shortCircuitingMiddleware; middleware2] =
  chainMiddleware (fun _ w => onResp (WriteHeader 401) w) [middleware1].
Proof.
  split.
  - unfold middleware1, middleware2.
    rewrite (proj1 (proj2 (proj2 (chainMiddleware_order (host := traceHost) testHandler)))).
    reflexivity.
  - apply (proj2 (proj2 (proj2 (chainMiddleware_order (host := traceHost) testHandler)))
             [middleware1] [middleware2] shortCircuitingMiddleware
             (fun _ _ => eq_refl) testHandler []).
Defined.

(** ** The dispatcher *)

Section DispatchProperties.
Context `{host : Host}.

Lemma templateScan_None (r : Request) (trs : list templateRoute) :
  templateScan r trs = None <->
  forall tr, tr ∈ trs ->
    ~ (method tr = Method r /\
       pathMatch (segments tr) (URL_Path r) = true /\
       queryMatch (queries tr) (URL_Query r) = true).
Proof.
  induction trs as [|tr rest IH]; simpl.
  - split; [intros _ tr Hin; inversion Hin | reflexivity].
  - destruct (String.eqb_spec (method tr) (Method r)) as [Em|Nm]; simpl;
      [destruct (pathMatch (segments tr) (URL_Path r)) eqn:Ep; simpl;
       [destruct (queryMatch (queries tr) (URL_Query r)) eqn:Eq; simpl|]|].
    + split; [discriminate|]. intros H. exfalso.
      apply (H tr); [left|auto].
    + rewrite IH. split.
      * intros H tr' Hin. apply elem_of_cons in Hin as [->|Hin]; [|now apply H].
        intros (_ & _ & Hq). congruence.
      * intros H tr' Hin. apply H. now right.
    + rewrite IH. split.
      * intros H tr' Hin. apply elem_of_cons in Hin as [->|Hin]; [|now apply H].
        intros (_ & Hp & _). congruence.
      * intros H tr' Hin. apply H. now right.
    + rewrite IH. split.
      * intros H tr' Hin. apply elem_of_cons in Hin as [->|Hin]; [|now apply H].
        intros (Hm & _ & _). contradiction.
      * intros H tr' Hin. apply H. now right.
Qed.

Lemma templatePathKnown_spec (r : Request) (trs : list templateRoute) :
  templatePathKnown r trs = true <->
  exists tr, tr ∈ trs /\
    pathMatch (segments tr) (URL_Path r) = true /\
    queryMatch (queries tr) (URL_Query r) = true.
Proof.
  induction trs as [|tr rest IH]; simpl.
  - split; [discriminate|]. intros (tr & Hin & _). inversion Hin.
  - destruct (pathMatch (segments tr) (URL_Path r)) eqn:Ep; simpl;
      [destruct (queryMatch (queries tr) (URL_Query r)) eqn:Eq; simpl|].
    + split; [|reflexivity]. intros _. exists tr. split; [left|auto].
    + rewrite IH. split.
      * intros (tr' & Hin & H). exists tr'. split; [now right|exact H].
      * intros (tr' & Hin & Hp & Hq).
        apply elem_of_cons in Hin as [->|Hin]; [congruence|].
        exists tr'. auto.
    + rewrite IH. split.
      * intros (tr' & Hin & H). exists tr'. split; [now right|exact H].
      * intros (tr' & Hin & Hp & Hq).
        apply elem_of_cons in Hin as [->|Hin]; [congruence|].
        exists tr'. auto.
Qed.

(** Some key of the exact map is a method followed by [" " + path]. *)
Lemma exactPathKnown_spec (rts : gmap string routeInfo) (path : string) :
  exactPathKnown rts (" " ++ path) = true <->
  exists m ri, rts !! (m ++ " " ++ path) = Some ri.
Proof.
  unfold exactPathKnown. rewrite existsb_exists. split.
  - intros ([k ri] & Hin & Hsuf). simpl in Hsuf.
    apply strings_HasSuffix_spec in Hsuf as [m ->].
    exists m, ri. now apply elem_of_map_to_list, list_elem_of_In.
  - intros (m & ri & Hk). exists (m ++ " " ++ path, ri). split.
    + now apply list_elem_of_In, elem_of_map_to_list.
    + simpl. apply strings_HasSuffix_spec. now exists m.
Qed.

Lemma resolve_exact (s : Stub) (r : Request) (ri : routeInfo) :
  routers s !! dispatchKey r = Some ri ->
  resolve s r = Serve (chainMiddleware (handler ri) (middlewares ri)).
Proof. intros H. unfold resolve. cbv zeta. now rewrite H. Qed.

(** C1: when the exact map holds an entry under the key
    [uppercase(method) + " " + path] of the request, the dispatcher resolves
    the request to that entry's composed handler and runs it; the list of
    templated routes plays no part: replacing it by any other list, with any
    number of matching routes in any order, leaves the resolution the
    same. *)
Theorem dispatch_exact_priority (s : Stub) (r : Request) (ri : routeInfo) :
  routers s !! (strings_ToUpper (Method r) ++ " " ++ URL_Path r) = Some ri ->
  resolve s r = Serve (chainMiddleware (handler ri) (middlewares ri)) /\
  (forall w, dispatch s r w = chainMiddleware (handler ri) (middlewares ri) r w) /\
  (forall trs : list templateRoute,
     resolve {| routers := routers s; templateRoutes := trs; baseURL := baseURL s;
                port := port s; Server := Server s; mux := mux s;
                closed := closed s |} r
     = Serve (chainMiddleware (handler ri) (middlewares ri))).
Proof.
  intros H. split; [|split].
  - now apply resolve_exact.
  - intros w. unfold dispatch. now rewrite (resolve_exact s r ri H).
  - intros trs. now apply resolve_exact.
Qed.

(** A path known under some method is never answered "not found" by the
    dispatcher itself, whatever else is registered. *)
Lemma resolve_known_path (s : Stub) (r : Request) :
  (exists m ri, routers s !! (m ++ " " ++ URL_Path r) = Some ri) \/
  (exists tr, tr ∈ templateRoutes s /\
              pathMatch (segments tr) (URL_Path r) = true /\
              queryMatch (queries tr) (URL_Query r) = true) ->
  resolve s r <> NotFound.
Proof.
  intros Hknown. unfold resolve. cbv zeta.
  destruct (routers s !! dispatchKey r); [discriminate|].
  destruct (templateScan r (templateRoutes s)); [discriminate|].
  destruct Hknown as [Hk|Hk].
  - apply exactPathKnown_spec in Hk. rewrite Hk. discriminate.
  - apply templatePathKnown_spec in Hk. rewrite Hk.
    destruct (exactPathKnown _ _); discriminate.
Qed.

(** X25: when neither the exact map (under the key of the request) nor any
    templated route (method, path and query) matches, the dispatcher answers
    405 if the exact map holds a key made of some other string, a space and
    the path of the request, whatever that string is, or if a templated
    route with another method matches path and query; it answers 404
    otherwise. *)
Theorem dispatch_method_mismatch (s : Stub) (r : Request) (e : HandlerState) :
  routers s !! (strings_ToUpper (Method r) ++ " " ++ URL_Path r) = None ->
  (forall tr, tr ∈ templateRoutes s ->
     ~ (method tr = Method r /\
        pathMatch (segments tr) (URL_Path r) = true /\
        queryMatch (queries tr) (URL_Query r) = true)) ->
  (((exists m ri, routers s !! (m ++ " " ++ URL_Path r) = Some ri /\
                  m <> strings_ToUpper (Method r)) \/
    (exists tr, tr ∈ templateRoutes s /\ method tr <> Method r /\
                pathMatch (segments tr) (URL_Path r) = true /\
                queryMatch (queries tr) (URL_Query r) = true)) ->
   resolve s r = MethodNotAllowed /\
   Code (resp (dispatch s r {| resp := NewRecorder; env := e |})) = 405%Z /\
   Code (resp (dispatch s r {| resp := NewRecorder; env := e |})) <> 404%Z) /\
  (~ ((exists m ri, routers s !! (m ++ " " ++ URL_Path r) = Some ri /\
                    m <> strings_ToUpper (Method r)) \/
      (exists tr, tr ∈ templateRoutes s /\ method tr <> Method r /\
                  pathMatch (segments tr) (URL_Path r) = true /\
                  queryMatch (queries tr) (URL_Query r) = true)) ->
   resolve s r = NotFound /\
   Code (resp (dispatch s r {| resp := NewRecorder; env := e |})) = 404%Z).
Proof.
  intros Hexact Htpl.
  pose proof (proj2 (templateScan_None r (templateRoutes s)) Htpl) as Hscan.
  assert (Hres : resolve s r =
                 if exactPathKnown (routers s) (" " ++ URL_Path r) ||
                    templatePathKnown r (templateRoutes s)
                 then MethodNotAllowed else NotFound).
  { unfold resolve, dispatchKey. cbv zeta. rewrite Hexact, Hscan.
    now destruct (exactPathKnown (routers s) (" " ++ URL_Path r)). }
  split.
  - intros Hknown.
    assert (Hb : exactPathKnown (routers s) (" " ++ URL_Path r) ||
                 templatePathKnown r (templateRoutes s) = true).
    { apply orb_true_iff. destruct Hknown as [(m & ri & Hk & _)|(tr & Hin & _ & Hp & Hq)].
      - left. apply exactPathKnown_spec. eauto.
      - right. apply templatePathKnown_spec. eauto. }
    rewrite Hb in Hres. unfold dispatch. rewrite Hres.
    split; [reflexivity|]. split; [reflexivity|discriminate].
  - intros Hunknown.
    assert (Hb : exactPathKnown (routers s) (" " ++ URL_Path r) ||
                 templatePathKnown r (templateRoutes s) = false).
    { apply not_true_is_false. intros Hb. apply Hunknown.
      apply orb_true_iff in Hb as [Hb|Hb].
      - left. apply exactPathKnown_spec in Hb as (m & ri & Hk).
        exists m, ri. split; [exact Hk|]. intros ->. congruence.
      - right. apply templatePathKnown_spec in Hb as (tr & Hin & Hp & Hq).
        exists tr. split; [exact Hin|]. split; [|auto].
        intros Hm. apply (Htpl tr Hin). auto. }
    rewrite Hb in Hres. unfold dispatch. rewrite Hres.
    split; reflexivity.
Qed.

End DispatchProperties.

(** The exact route of [priorityStub] wins over both templated routes. *)
Lemma dispatch_exact_priority_witness :
  pathMatch [":name"] "/foo" = true /\
  env (dispatch priorityStub (testRequest "get" "/foo") freshWorld) =
  ["middleware1-before"; "exact"; "middleware1-after"].
Proof.
  split; [reflexivity|].
  rewrite (proj1 (proj2 (dispatch_exact_priority (host := traceHost) priorityStub
                           (testRequest "get" "/foo")
                           {| handler := appendExec "exact"; middlewares := [middleware1] |}
                           ltac:(vm_compute; reflexivity)))).
  reflexivity.
Defined.

(** TestStub_Dispatch: the path exists under another method, then an unknown
    path. *)
Lemma dispatch_method_mismatch_witness :
  Code (resp (dispatch dispatchTestStub (testRequest "POST" "/foo") freshWorld)) = 405%Z /\
  Code (resp (dispatch dispatchTestStub (testRequest "GET" "/unknown") freshWorld)) = 404%Z.
Proof.
  split.
  - apply (proj1 (dispatch_method_mismatch (host := traceHost) dispatchTestStub
                    (testRequest "POST" "/foo") []
                    ltac:(vm_compute; reflexivity)
                    ltac:(intros tr Hin; inversion Hin))).
    left. exists "GET".
    exists {| handler := fun _ w => onResp (WriteHeader http_StatusOK) w;
              middlewares := [] |}.
    split; [vm_compute; reflexivity|discriminate].
  - apply (proj2 (dispatch_method_mismatch (host := traceHost) dispatchTestStub
                    (testRequest "GET" "/unknown") []
                    ltac:(vm_compute; reflexivity)
                    ltac:(intros tr Hin; inversion Hin))).
    intros [(m & ri & Hk & _)|(tr & Hin & _)]; [|inversion Hin].
    change (routers dispatchTestStub) with
      (<["GET /foo" := {| handler := fun _ (w : @World traceHost) =>
                                       onResp (WriteHeader http_StatusOK) w;
                          middlewares := [] |}]> (∅ : gmap string (@routeInfo traceHost)))
      in Hk.
    apply lookup_insert_Some in Hk as [[Hk _]|[_ Hk]];
      [|rewrite lookup_empty in Hk; discriminate].
    apply (f_equal String.length) in Hk. rewrite !string_length_app in Hk.
    simpl in Hk. lia.
Defined.

(** ** The life cycle *)

Section LifecycleProperties.
Context `{host : Host}.

(** [Close] on a running stub closes its server and sets the flag. *)
Lemma Close_running (s : Stub) (srv : httptest_Server) :
  Server s = Some srv -> closed s = false ->
  closed (Close s) = true /\
  Server (Close s) = Some (Server_Close srv) /\
  routers (Close s) = routers s /\
  templateRoutes (Close s) = templateRoutes s.
Proof. intros Hs Hc. unfold Close. rewrite Hs, Hc. simpl. auto. Qed.

Lemma Close_unstarted (s : Stub) : Server s = None -> Close s = s.
Proof. intros Hs. unfold Close. now rewrite Hs. Qed.

(** C7: closing twice leaves the stub as closing once does, and the URL
    accessor returns the empty string after the first close and after the
    second.  [Close] has no error result and no panicking path, so it is a
    total function of the stub; the statement holds from every state, the
    started ones included. *)
Theorem Close_idempotent (s : Stub) :
  Close (Close s) = Close s /\
  URL (Close s) = "" /\
  URL (Close (Close s)) = "".
Proof.
  assert (Hurl : URL (Close s) = "").
  { destruct s as [rts trs url p [srv|] m [|]]; reflexivity. }
  assert (Hidem : Close (Close s) = Close s).
  { destruct s as [rts trs url p [srv|] m [|]]; reflexivity. }
  split; [exact Hidem|]. split; [exact Hurl|]. now rewrite Hidem.
Qed.

Lemma Start_already_started (listen : string -> string -> Listener + error)
    (s : Stub) (srv : httptest_Server) :
  Server s = Some srv ->
  Start listen s = (s, Some (errorString "stub server is already started")).
Proof. intros Hs. unfold Start. now rewrite Hs. Qed.

(** C8: after a failed bind, [Start] returns an error that wraps the bind
    failure and the stub has no server and no URL; but the failed attempt
    has set [s.mux] to nil, so that a later [Start] that binds returns no
    error and yet creates a server whose handler is the nil mux, on which
    every request panics, where a first [Start] would have served with the
    mux built by [NewStub]. *)
Theorem Start_retry_after_bind_failure (s : Stub)
    (listenFail listenOk : string -> string -> Listener + error)
    (err : error) (ln : Listener) :
  Server s = None ->
  listenFail "tcp" (net_JoinHostPort "" (port s)) = inr err ->
  listenOk "tcp" (net_JoinHostPort "" (port s)) = inl ln ->
  (exists e, snd (Start listenFail s) = Some e /\
             Unwrap e = Some err /\
             Error_ e = "could not listen on " ++ net_JoinHostPort "" (port s) ++ ": "
                        ++ Error_ err) /\
  (Server (fst (Start listenFail s)) = None /\
   baseURL (fst (Start listenFail s)) = baseURL s /\
   URL (fst (Start listenFail s)) = "" /\
   routers (fst (Start listenFail s)) = routers s /\
   templateRoutes (fst (Start listenFail s)) = templateRoutes s) /\
  mux (fst (Start listenFail s)) = None /\
  snd (Start listenOk (fst (Start listenFail s))) = None /\
  (exists srv, Server (fst (Start listenOk (fst (Start listenFail s)))) = Some srv /\
               srvHandler srv = None /\
               forall r w, Server_ServeHTTP srv (fst (Start listenOk (fst (Start listenFail s)))) r w
                           = Panicked "runtime error: invalid memory address or nil pointer dereference") /\
  (exists srv, Server (fst (Start listenOk s)) = Some srv /\ srvHandler srv = mux s).
Proof.
  intros Hs Hfail Hok.
  assert (HF : Start listenFail s =
               ({| routers := routers s; templateRoutes := templateRoutes s;
                   baseURL := baseURL s; port := port s; Server := None;
                   mux := None; closed := closed s |},
                Some (wrapError ("could not listen on " ++ net_JoinHostPort "" (port s)
                                 ++ ": " ++ Error_ err) err))).
  { unfold Start. rewrite Hs. cbv zeta. rewrite Hfail. reflexivity. }
  rewrite HF. cbn [fst snd].
  split; [eexists; split; [reflexivity|split; reflexivity]|].
  split; [repeat split; reflexivity|].
  split; [reflexivity|].
  assert (HO : Start listenOk
                 {| routers := routers s; templateRoutes := templateRoutes s;
                    baseURL := baseURL s; port := port s; Server := None;
                    mux := None; closed := closed s |} =
               ({| routers := routers s; templateRoutes := templateRoutes s;
                   baseURL := "http://" ++ Addr ln; port := port s;
                   Server := Some {| srvListener := ln; srvHandler := None;
                                     srvURL := "http://" ++ Addr ln;
                                     srvClosed := false |};
                   mux := None; closed := closed s |},
                None)).
  { unfold Start. cbn [Server port mux]. cbv zeta. rewrite Hok. reflexivity. }
  rewrite HO. cbn [fst snd].
  split; [reflexivity|]. split.
  - eexists. split; [reflexivity|]. split; [reflexivity|]. intros r w. reflexivity.
  - unfold Start. rewrite Hs. cbv zeta. rewrite Hok. cbn [fst].
    eexists. split; reflexivity.
Qed.

End LifecycleProperties.

(** "fails to start on occupied port", then the port is freed and [Start] is
    called again: the readiness probe panics on the nil mux, where it
    answers 200 "ok" on a stub started without the failed attempt. *)
Lemma Start_retry_after_bind_failure_witness :
  (exists srv,
     Server (fst (Start listenFree (fst (Start listenOccupied secondStub)))) = Some srv /\
     Server_ServeHTTP srv (fst (Start listenFree (fst (Start listenOccupied secondStub))))
       (testRequest "GET" "/readyz") freshWorld
     = Panicked "runtime error: invalid memory address or nil pointer dereference") /\
  (exists srv s' w',
     Server (fst (Start listenFree secondStub)) = Some srv /\
     Server_ServeHTTP srv (fst (Start listenFree secondStub))
       (testRequest "GET" "/readyz") freshWorld = Returned (s', w') /\
     Code (resp w') = 200%Z /\ RespBody (resp w') = "ok").
Proof.
  pose proof (Start_retry_after_bind_failure (host := traceHost) secondStub
                listenOccupied listenFree
                (errorString "listen tcp :12345: bind: address already in use")
                {| Addr := "[::]:12345" |} eq_refl eq_refl eq_refl)
    as (_ & _ & _ & _ & (srv & Hsrv & _ & Hpanic) & _).
  split.
  - exists srv. split; [exact Hsrv|apply Hpanic].
  - eexists. eexists. eexists. split; [reflexivity|]. split; [reflexivity|].
    split; reflexivity.
Defined.

(** ** The control plane *)

Section ControlPlaneProperties.
Context `{host : Host}.

Lemma http_Error_Code (err : string) (code : Z) :
  Code (http_Error NewRecorder err code) = code.
Proof. reflexivity. Qed.

(** Setting headers neither writes the status nor changes it. *)
Lemma setHeaders_status (headers : gmap string string) (rec : ResponseRecorder) :
  let rec' := map_fold
                (fun k v acc => Header_put (textproto_CanonicalMIMEHeaderKey k) v acc)
                rec headers in
  wroteHeader rec' = wroteHeader rec /\ Code rec' = Code rec /\ RespBody rec' = RespBody rec.
Proof.
  cbv zeta.
  apply (map_fold_weak_ind
           (fun (acc : ResponseRecorder) (_ : gmap string string) =>
              wroteHeader acc = wroteHeader rec /\ Code acc = Code rec /\
              RespBody acc = RespBody rec)).
  - auto.
  - intros k v m acc _ IH. exact IH.
Qed.

(** A handler built by the control plane answers with the status of its
    payload. *)
Lemma responseHandler_Code (spec : DynamicHandlerSpec.t) (r : Request) (e : HandlerState) :
  Code (resp (responseHandler spec r {| resp := NewRecorder; env := e |}))
  = DynamicHandlerSpec.Status spec.
Proof.
  unfold responseHandler, onResp. cbv zeta. cbn [resp].
  destruct (setHeaders_status (DynamicHandlerSpec.Headers spec) NewRecorder)
    as (Hw & _ & _). cbv zeta in Hw.
  set (rec1 := map_fold _ NewRecorder _) in *.
  assert (HC : Code (WriteHeader (DynamicHandlerSpec.Status spec) rec1)
               = DynamicHandlerSpec.Status spec /\
               wroteHeader (WriteHeader (DynamicHandlerSpec.Status spec) rec1) = true).
  { unfold WriteHeader. rewrite Hw. simpl. auto. }
  destruct HC as [HC HW].
  destruct (negb (String.eqb (DynamicHandlerSpec.Body spec) "")); [|exact HC].
  unfold Write. cbv zeta. cbn [Code].
  unfold WriteHeader at 1. rewrite HW. exact HC.
Qed.

Lemma controlAddHandler_not_POST (s : Stub) (r : Request) (w : ResponseRecorder) :
  Method r <> http_MethodPost ->
  controlAddHandler s r w =
  (s, http_Error w (http_StatusText http_StatusMethodNotAllowed)
        http_StatusMethodNotAllowed).
Proof.
  intros H. unfold controlAddHandler.
  destruct (String.eqb_spec (Method r) http_MethodPost); [contradiction|reflexivity].
Qed.

(** A body that does not decode, or a payload without method or path, is
    turned down and the stub is not touched. *)
Lemma controlAddHandler_reject (s : Stub) (r : Request)
    (decoded : DynamicHandlerSpec.t + error) :
  json_Decode (Body r) = decoded ->
  match decoded with
  | inr _ => True
  | inl spec => DynamicHandlerSpec.Method spec = "" \/ DynamicHandlerSpec.Path spec = ""
  end ->
  fst (controlAddHandler s r NewRecorder) = s /\
  (400 <= Code (snd (controlAddHandler s r NewRecorder)) < 500)%Z /\
  (Method r = "POST" -> Code (snd (controlAddHandler s r NewRecorder)) = 400%Z).
Proof.
  intros Hdec Hbad.
  destruct (String.eqb_spec (Method r) http_MethodPost) as [Hpost|Hnot].
  - assert (Hrej : exists msg, controlAddHandler s r NewRecorder =
                               (s, http_Error NewRecorder msg http_StatusBadRequest)).
    { unfold controlAddHandler. rewrite Hpost, String.eqb_refl. cbn [negb].
      rewrite Hdec. destruct decoded as [spec|err]; [|eauto].
      destruct Hbad as [-> | ->]; rewrite ?String.eqb_refl, ?orb_true_r; cbn; eauto. }
    destruct Hrej as [msg ->]. cbn [fst snd]. rewrite http_Error_Code.
    unfold http_StatusBadRequest. repeat split; lia.
  - rewrite (controlAddHandler_not_POST s r NewRecorder Hnot). cbn [fst snd].
    rewrite http_Error_Code. unfold http_StatusMethodNotAllowed.
    repeat split; try lia. intros Hp. contradiction.
Qed.

(** C9: a request whose body does not decode, or decodes to a payload with an
    empty method or an empty path, is answered with a status of the 400
    class (400 itself when the request is a POST) and the stub, so its exact
    map and its templated list, is left as it was; a POST whose payload has
    method and path and status 0 (also what an absent status decodes to) is
    answered 201 and registers, in the exact map or at the end of the
    templated list, a handler that answers with status 200. *)
Theorem controlAddHandler_rejects_malformed (s : Stub) (r : Request) :
  (forall err,
     json_Decode (Body r) = inr err ->
     fst (controlAddHandler s r NewRecorder) = s /\
     routers (fst (controlAddHandler s r NewRecorder)) = routers s /\
     templateRoutes (fst (controlAddHandler s r NewRecorder)) = templateRoutes s /\
     (400 <= Code (snd (controlAddHandler s r NewRecorder)) < 500)%Z /\
     (Method r = "POST" -> Code (snd (controlAddHandler s r NewRecorder)) = 400%Z)) /\
  (forall spec,
     json_Decode (Body r) = inl spec ->
     DynamicHandlerSpec.Method spec = "" \/ DynamicHandlerSpec.Path spec = "" ->
     fst (controlAddHandler s r NewRecorder) = s /\
     routers (fst (controlAddHandler s r NewRecorder)) = routers s /\
     templateRoutes (fst (controlAddHandler s r NewRecorder)) = templateRoutes s /\
     (400 <= Code (snd (controlAddHandler s r NewRecorder)) < 500)%Z /\
     (Method r = "POST" -> Code (snd (controlAddHandler s r NewRecorder)) = 400%Z)) /\
  (forall spec,
     Method r = "POST" ->
     json_Decode (Body r) = inl spec ->
     DynamicHandlerSpec.Method spec <> "" ->
     DynamicHandlerSpec.Path spec <> "" ->
     DynamicHandlerSpec.Status spec = 0%Z ->
     forall h,
       h = responseHandler
             {| DynamicHandlerSpec.Method := DynamicHandlerSpec.Method spec;
                DynamicHandlerSpec.Path := DynamicHandlerSpec.Path spec;
                DynamicHandlerSpec.Query := DynamicHandlerSpec.Query spec;
                DynamicHandlerSpec.Status := 200;
                DynamicHandlerSpec.Body := DynamicHandlerSpec.Body spec;
                DynamicHandlerSpec.Headers := DynamicHandlerSpec.Headers spec |} ->
       Code (snd (controlAddHandler s r NewRecorder)) = 201%Z /\
       ((routers (fst (controlAddHandler s r NewRecorder)) =
           <[strings_ToUpper (DynamicHandlerSpec.Method spec) ++ " " ++
             DynamicHandlerSpec.Path spec := {| handler := h; middlewares := [] |}]>
             (routers s) /\
         templateRoutes (fst (controlAddHandler s r NewRecorder)) = templateRoutes s) \/
        (routers (fst (controlAddHandler s r NewRecorder)) = routers s /\
         templateRoutes (fst (controlAddHandler s r NewRecorder)) =
           (templateRoutes s ++
            [{| method := strings_ToUpper (DynamicHandlerSpec.Method spec);
                segments := strings_Split
                              (strings_Trim (DynamicHandlerSpec.Path spec) slash) slash;
                queries := DynamicHandlerSpec.Query spec;
                info := {| handler := h; middlewares := [] |} |}])%list)) /\
       (forall r' e, Code (resp (h r' {| resp := NewRecorder; env := e |})) = 200%Z)).
Proof.
  split; [|split].
  - intros err Hdec.
    destruct (controlAddHandler_reject s r (inr err) Hdec I) as (Hs & Hc & Hp).
    rewrite Hs. auto.
  - intros spec Hdec Hbad.
    destruct (controlAddHandler_reject s r (inl spec) Hdec Hbad) as (Hs & Hc & Hp).
    rewrite Hs. auto.
  - intros spec Hpost Hdec Hm Hp Hst h ->.
    assert (Hdef : defaultStatus spec =
                   {| DynamicHandlerSpec.Method := DynamicHandlerSpec.Method spec;
                      DynamicHandlerSpec.Path := DynamicHandlerSpec.Path spec;
                      DynamicHandlerSpec.Query := DynamicHandlerSpec.Query spec;
                      DynamicHandlerSpec.Status := 200;
                      DynamicHandlerSpec.Body := DynamicHandlerSpec.Body spec;
                      DynamicHandlerSpec.Headers := DynamicHandlerSpec.Headers spec |}).
    { unfold defaultStatus. now rewrite Hst. }
    split; [|split].
    + unfold controlAddHandler. rewrite Hpost. cbn [String.eqb negb]. rewrite Hdec.
      destruct (String.eqb_spec (DynamicHandlerSpec.Method spec) ""); [contradiction|].
      destruct (String.eqb_spec (DynamicHandlerSpec.Path spec) ""); [contradiction|].
      cbn [orb]. cbv zeta.
      destruct (_ || _); reflexivity.
    + unfold controlAddHandler. rewrite Hpost. cbn [String.eqb negb]. rewrite Hdec.
      destruct (String.eqb_spec (DynamicHandlerSpec.Method spec) ""); [contradiction|].
      destruct (String.eqb_spec (DynamicHandlerSpec.Path spec) ""); [contradiction|].
      cbn [orb]. cbv zeta. rewrite Hdef. cbn [DynamicHandlerSpec.Method
        DynamicHandlerSpec.Path DynamicHandlerSpec.Query].
      destruct (_ || _); cbn [fst routers templateRoutes]; [right|left]; split; reflexivity.
    + intros r' e. now rewrite responseHandler_Code.
Qed.

End ControlPlaneProperties.

(** A body that is not JSON, a payload without a path, and a payload
    without a status, each posted to a new stub. *)
Lemma controlAddHandler_rejects_malformed_witness :
  (fst (controlAddHandler (host := traceHost) (NewStub []) (controlRequest "{") NewRecorder) = NewStub [] /\
   Code (snd (controlAddHandler (host := traceHost) (NewStub []) (controlRequest "{") NewRecorder)) = 400%Z) /\
  (fst (controlAddHandler (host := traceHost) (NewStub []) (controlRequest "without-path") NewRecorder)
   = NewStub [] /\
   Code (snd (controlAddHandler (host := traceHost) (NewStub []) (controlRequest "without-path") NewRecorder))
   = 400%Z) /\
  Code (snd (controlAddHandler (host := traceHost) (NewStub []) (controlRequest "dynamic-without-status")
               NewRecorder)) = 201%Z.
Proof.
  split; [|split].
  - destruct (proj1 (controlAddHandler_rejects_malformed (host := traceHost)
                       (NewStub []) (controlRequest "{"))
                (errorString "invalid character 'x' looking for beginning of value")
                eq_refl)
      as (Hs & _ & _ & _ & Hc).
    split; [exact Hs|exact (Hc eq_refl)].
  - destruct (proj1 (proj2 (controlAddHandler_rejects_malformed (host := traceHost)
                              (NewStub []) (controlRequest "without-path")))
                _ eq_refl (or_intror eq_refl))
      as (Hs & _ & _ & _ & Hc).
    split; [exact Hs|exact (Hc eq_refl)].
  - refine (proj1 (proj2 (proj2 (controlAddHandler_rejects_malformed (host := traceHost)
                                   (NewStub []) (controlRequest "dynamic-without-status")))
                     _ eq_refl eq_refl _ _ eq_refl _ eq_refl));
      discriminate.
Defined.

(** TestStub_ControlAddHandler, with the status left out of the payload: the
    route registered through the control plane answers 200 with the body of
    the payload. *)
Example control_plane_default_status :
  let s := fst (controlAddHandler (host := traceHost) (NewStub []) (controlRequest "dynamic-without-status")
                  NewRecorder) in
  let w := dispatch s (testRequest "GET" "/dynamic") freshWorld in
  Code (resp w) = 200%Z /\ RespBody (resp w) = "created".
Proof. vm_compute. split; reflexivity. Qed.

(** TestStub_TemplateRouteMatching: right method, path and query; wrong
    query value; right path and query under another method. *)
Example template_route_matching :
  RespBody (resp (dispatch ordersStub (ordersRequest "GET" "shipped") freshWorld))
  = "matched" /\
  Code (resp (dispatch ordersStub (ordersRequest "GET" "shipped") freshWorld)) = 200%Z /\
  Code (resp (dispatch ordersStub (ordersRequest "GET" "pending") freshWorld)) = 404%Z /\
  Code (resp (dispatch ordersStub (ordersRequest "POST" "shipped") freshWorld)) = 405%Z.
Proof. vm_compute. repeat split; reflexivity. Qed.

(** The exact map is keyed by one string, method, space and path, and the
    test [strings.HasSuffix(k, " " + r.URL.Path)] takes as the method of a
    key all that precedes the final space and path: for the dispatcher the
    key of the route [GET "/a /foo"] is also a key of the path [/foo], under
    the method ["GET /a"]. *)
Example exact_key_is_one_string :
  let s := returned (AddHandler (host := traceHost) (NewStub []) "GET" "/a /foo"
                       testHandler []) (NewStub []) in
  resolve (host := traceHost) s (testRequest "GET" "/foo") = MethodNotAllowed /\
  routers s !! ("GET /a" ++ " " ++ "/foo") <> None.
Proof. vm_compute. split; [reflexivity|discriminate]. Qed.

(** * Further properties of the matchers *)

Lemma trimRightByte_snoc (p : string) (c : ascii) :
  trimRightByte (p ++ String c EmptyString) c = trimRightByte p c.
Proof.
  induction p as [|a p IH].
  - change (trimRightByte (String c EmptyString) c = EmptyString).
    cbn [trimRightByte]. now rewrite Ascii.eqb_refl.
  - change (trimRightByte (String a (p ++ String c EmptyString)) c
            = trimRightByte (String a p) c).
    cbn [trimRightByte]. now rewrite IH.
Qed.

Lemma strings_Trim_snoc (p : string) (c : ascii) :
  strings_Trim (p ++ String c EmptyString) c = strings_Trim p c.
Proof. unfold strings_Trim. now rewrite trimRightByte_snoc. Qed.

Lemma strings_Trim_cons (p : string) (c : ascii) :
  strings_Trim (String c p) c = strings_Trim p c.
Proof.
  unfold strings_Trim. cbn [trimRightByte].
  destruct (trimRightByte p c) as [|b t] eqn:E.
  - now rewrite Ascii.eqb_refl.
  - cbn [trimLeftByte]. now rewrite Ascii.eqb_refl.
Qed.

Lemma pathMatch_refl (path : string) : pathMatch (reqSegsOf path) path = true.
Proof.
  apply pathMatch_spec. split; [reflexivity|].
  intros i seg Hi. right. exact Hi.
Qed.

(** X1: a template made from a path, as [AddHandler] and the control plane
    make it, matches that very path: literal segments equal themselves and
    placeholders accept their own text. *)
Theorem pathMatch_own_path (path : string) :
  pathMatch (strings_Split (strings_Trim path slash) slash) path = true.
Proof. exact (pathMatch_refl path). Qed.

(** X2: [pathMatch] does not see slashes around the request path: one more
    slash in front or at the end changes nothing, whatever the template. *)
Theorem pathMatch_outer_slashes (tplSegs : list string) (rawPath : string) :
  pathMatch tplSegs ("/" ++ rawPath) = pathMatch tplSegs rawPath /\
  pathMatch tplSegs (rawPath ++ "/") = pathMatch tplSegs rawPath.
Proof.
  unfold pathMatch, reqSegsOf. split.
  - change ("/" ++ rawPath) with (String slash rawPath).
    now rewrite strings_Trim_cons.
  - change "/" with (String slash EmptyString). now rewrite strings_Trim_snoc.
Qed.

Lemma strings_Split_inj (s t : string) (c : ascii) :
  strings_Split s c = strings_Split t c -> s = t.
Proof.
  revert t. induction s as [|a s IH]; intros [|b t] H; cbn [strings_Split] in H.
  - reflexivity.
  - destruct (Ascii.eqb b c).
    + exfalso. pose proof (strings_Split_nonempty t c) as N.
      destruct (strings_Split t c); [contradiction|discriminate].
    + destruct (strings_Split t c); discriminate.
  - destruct (Ascii.eqb a c).
    + exfalso. pose proof (strings_Split_nonempty s c) as N.
      destruct (strings_Split s c); [contradiction|discriminate].
    + destruct (strings_Split s c); discriminate.
  - destruct (Ascii.eqb_spec a c) as [->|Na], (Ascii.eqb_spec b c) as [->|Nb].
    + injection H as H. f_equal. now apply IH.
    + exfalso. destruct (strings_Split t c); discriminate.
    + exfalso. destruct (strings_Split s c); discriminate.
    + pose proof (strings_Split_nonempty s c) as Ns.
      pose proof (strings_Split_nonempty t c) as Nt.
      destruct (strings_Split s c) as [|x xs] eqn:Es; [contradiction|].
      destruct (strings_Split t c) as [|y ys] eqn:Et; [contradiction|].
      injection H as Hab Hxy Hxs. subst b y ys. f_equal. apply IH.
      now rewrite Et.
Qed.

(** X3: a template without placeholder matches exactly the request paths
    that are equal to its own path once the slashes around both are
    trimmed. *)
Theorem pathMatch_literal_template (tplPath rawPath : string) :
  (forall seg, seg ∈ strings_Split (strings_Trim tplPath slash) slash ->
               strings_HasPrefix seg ":" = false) ->
  (pathMatch (strings_Split (strings_Trim tplPath slash) slash) rawPath = true <->
   strings_Trim rawPath slash = strings_Trim tplPath slash).
Proof.
  intros Hlit. split.
  - intros H. apply pathMatch_spec in H as [Hlen H].
    apply (strings_Split_inj _ _ slash). fold (reqSegsOf rawPath).
    apply list_eq. intros i.
    destruct (strings_Split (strings_Trim tplPath slash) slash !! i) as [seg|] eqn:Ei.
    + destruct (H i seg Ei) as [Hp|Hr]; [|exact Hr].
      rewrite (Hlit seg) in Hp; [discriminate|].
      apply list_elem_of_lookup. eauto.
    + apply lookup_ge_None. apply lookup_ge_None in Ei. lia.
  - intros E. apply pathMatch_spec. unfold reqSegsOf. rewrite E.
    split; [reflexivity|]. intros i seg Hi. right. exact Hi.
Qed.

(** X4: [queryMatch] reads the actual query only through the first value of
    each constrained key: two queries that agree there get the same
    answer, whatever further values and further keys they hold. *)
Theorem queryMatch_first_values (C : gmap string string) (Q Q' : Values) :
  (forall k v, C !! k = Some v -> Values_Get Q k = Values_Get Q' k) ->
  queryMatch C Q = queryMatch C Q'.
Proof.
  intros Hagree.
  destruct (queryMatch C Q') eqn:E'.
  - apply queryMatch_spec. intros k v Hk.
    rewrite (Hagree k v Hk). exact (proj1 (queryMatch_spec C Q') E' k v Hk).
  - destruct (queryMatch C Q) eqn:E; [|reflexivity].
    rewrite <- E'. symmetry. apply queryMatch_spec. intros k v Hk.
    rewrite <- (Hagree k v Hk). exact (proj1 (queryMatch_spec C Q) E k v Hk).
Qed.

Lemma queryMatch_first_values_witness :
  queryMatch {[ "foo" := "1" ]} (<["foo" := ["1"; "7"]]> {[ "bar" := ["2"] ]}) =
  queryMatch {[ "foo" := "1" ]} {[ "foo" := ["1"] ]}.
Proof.
  apply (queryMatch_first_values {[ "foo" := "1" ]}
           (<["foo" := ["1"; "7"]]> {[ "bar" := ["2"] ]}) {[ "foo" := ["1"] ]}).
  intros k v Hk. apply lookup_singleton_Some in Hk as [<- <-]. reflexivity.
Defined.

(** X5: dropping constraints can only widen the match: a query accepted
    under a constraint mapping is accepted under every part of it. *)
Theorem queryMatch_fewer_constraints (C C' : gmap string string) (Q : Values) :
  C' ⊆ C -> queryMatch C Q = true -> queryMatch C' Q = true.
Proof.
  intros Hsub H. apply queryMatch_spec. intros k v Hk.
  apply (proj1 (queryMatch_spec C Q) H k v).
  exact (lookup_weaken C' C k v Hk Hsub).
Qed.

Lemma queryMatch_fewer_constraints_witness :
  queryMatch {[ "status" := "shipped" ]}
             (<["status" := ["shipped"]]> {[ "type" := ["expedited"] ]}) = true.
Proof.
  apply (queryMatch_fewer_constraints
           (<["status" := "shipped"]> {[ "type" := "expedited" ]})
           {[ "status" := "shipped" ]}
           (<["status" := ["shipped"]]> {[ "type" := ["expedited"] ]})).
  - apply map_subseteq_spec. intros k v Hk.
    apply lookup_singleton_Some in Hk as [<- <-]. reflexivity.
  - vm_compute. reflexivity.
Defined.

Lemma pathMatch_literal_template_witness :
  pathMatch (strings_Split (strings_Trim "/users/42/" slash) slash) "users/42" = true.
Proof.
  apply (proj2 (pathMatch_literal_template "/users/42/" "users/42"
                  ltac:(intros seg Hin;
                        change (seg ∈ ["users"; "42"]) in Hin;
                        repeat (apply elem_of_cons in Hin as [->|Hin]; [reflexivity|]);
                        inversion Hin))).
  reflexivity.
Defined.

(** * Further properties of the registry and the dispatcher *)

Section RegistryProperties.
Context `{host : Host}.

Lemma templateScan_app (r : Request) (trs1 trs2 : list templateRoute) :
  templateScan r (trs1 ++ trs2) =
  match templateScan r trs1 with
  | Some final => Some final
  | None => templateScan r trs2
  end.
Proof.
  induction trs1 as [|tr trs1 IH]; [reflexivity|].
  cbn [app templateScan].
  destruct (negb (String.eqb (method tr) (Method r))); [exact IH|].
  destruct (negb (pathMatch (segments tr) (URL_Path r))); [exact IH|].
  destruct (negb (queryMatch (queries tr) (URL_Query r))); [exact IH|reflexivity].
Qed.

Lemma templatePathKnown_app (r : Request) (trs1 trs2 : list templateRoute) :
  templatePathKnown r (trs1 ++ trs2) =
  templatePathKnown r trs1 || templatePathKnown r trs2.
Proof.
  induction trs1 as [|tr trs1 IH]; [reflexivity|].
  cbn [app templatePathKnown].
  destruct (negb (pathMatch (segments tr) (URL_Path r))); [exact IH|].
  destruct (negb (queryMatch (queries tr) (URL_Query r))); [exact IH|reflexivity].
Qed.

Lemma templateScan_match (r : Request) (tr : templateRoute) (rest : list templateRoute) :
  method tr = Method r ->
  pathMatch (segments tr) (URL_Path r) = true ->
  queryMatch (queries tr) (URL_Query r) = true ->
  templateScan r (tr :: rest) =
  Some (chainMiddleware (handler (info tr)) (middlewares (info tr))).
Proof.
  intros Hm Hp Hq. cbn [templateScan]. now rewrite Hm, String.eqb_refl, Hp, Hq.
Qed.

Lemma resolve_served_inv (s : Stub) (r : Request) :
  (forall final, resolve s r <> Serve final) ->
  routers s !! dispatchKey r = None /\ templateScan r (templateRoutes s) = None.
Proof.
  intros H. unfold resolve in H. cbv zeta in H.
  destruct (routers s !! dispatchKey r) as [ri|];
    [exfalso; exact (H _ eq_refl)|].
  destruct (templateScan r (templateRoutes s)) as [f|];
    [exfalso; exact (H f eq_refl)|].
  now split.
Qed.

Lemma AddHandler_exact_served (s : Stub) (m path : string)
    (h : Handler) (mws : list Middleware) :
  closed s = false ->
  strings_ContainsByte path colon = false ->
  exists s',
    AddHandler s m path h mws = Returned s' /\
    forall r, strings_ToUpper (Method r) = strings_ToUpper m -> URL_Path r = path ->
      resolve s' r = Serve (chainMiddleware h mws) /\
      forall w, dispatch s' r w = chainMiddleware h mws r w.
Proof.
  intros Hc Hp. unfold AddHandler. rewrite Hc, Hp. cbv zeta.
  eexists. split; [reflexivity|]. intros r Hm Hpath.
  match goal with
  | |- resolve ?x r = _ /\ _ =>
      assert (Hres : resolve x r = Serve (chainMiddleware h mws))
  end.
  { apply (resolve_exact _ r {| handler := h; middlewares := mws |}).
    unfold dispatchKey. cbn [routers]. now rewrite Hm, Hpath, lookup_insert_eq. }
  split; [exact Hres|]. intros w. unfold dispatch. now rewrite Hres.
Qed.

(** X6: registering an exact route and then dispatching a request for it is
    a round trip: after [AddHandler] with a path without [":"] on a stub
    that is not closed, every request with that path whose method is the
    registered one up to upper-casing runs the registered handler inside
    its middlewares, whatever the stub held before. *)
Theorem AddHandler_then_dispatch (s : Stub) (m path : string)
    (h : Handler) (mws : list Middleware) :
  closed s = false ->
  strings_ContainsByte path colon = false ->
  exists s',
    AddHandler s m path h mws = Returned s' /\
    forall r, strings_ToUpper (Method r) = strings_ToUpper m -> URL_Path r = path ->
      resolve s' r = Serve (chainMiddleware h mws) /\
      forall w, dispatch s' r w = chainMiddleware h mws r w.
Proof. exact (AddHandler_exact_served s m path h mws). Qed.

(** X7: for exact routes the last registration wins: registering a second
    handler under the same method and path gives the stub that registering
    only the second one gives. *)
Theorem AddHandler_last_write_wins (s s1 : Stub) (m path : string)
    (h1 h2 : Handler) (mws1 mws2 : list Middleware) :
  strings_ContainsByte path colon = false ->
  AddHandler s m path h1 mws1 = Returned s1 ->
  AddHandler s1 m path h2 mws2 = AddHandler s m path h2 mws2.
Proof.
  intros Hp H1. unfold AddHandler in *. rewrite Hp in *. cbv zeta in *.
  destruct (closed s) eqn:Hc; [discriminate|].
  injection H1 as <-. cbn [closed routers templateRoutes baseURL port Server mux].
  rewrite ?Hc. now rewrite insert_insert_eq.
Qed.

(** X8: among templated routes the first registration wins: when no exact
    entry has the key of the request, the request runs the handler of the
    first templated route, in the order of the list, whose method, path and
    query match, whatever comes after it. *)
Theorem resolve_first_template (s : Stub) (r : Request)
    (before after : list templateRoute) (tr : templateRoute) :
  routers s !! (strings_ToUpper (Method r) ++ " " ++ URL_Path r) = None ->
  templateRoutes s = (before ++ tr :: after)%list ->
  (forall tr', tr' ∈ before ->
     ~ (method tr' = Method r /\
        pathMatch (segments tr') (URL_Path r) = true /\
        queryMatch (queries tr') (URL_Query r) = true)) ->
  method tr = Method r ->
  pathMatch (segments tr) (URL_Path r) = true ->
  queryMatch (queries tr) (URL_Query r) = true ->
  resolve s r = Serve (chainMiddleware (handler (info tr)) (middlewares (info tr))).
Proof.
  intros Hk Htrs Hbefore Hm Hp Hq. unfold resolve, dispatchKey. cbv zeta.
  rewrite Hk, Htrs, templateScan_app.
  rewrite (proj2 (templateScan_None r before) Hbefore).
  now rewrite (templateScan_match r tr after Hm Hp Hq).
Qed.

(** X9: registering a templated route and then dispatching is a round trip
    for the requests that nothing served before: after [AddHandler] with a
    path that holds [":"], a request whose method is the upper-cased
    registered method, byte for byte, and whose path matches the segments of
    the registered path runs the registered handler, whatever its query. *)
Theorem AddHandler_template_then_dispatch (s : Stub) (m path : string)
    (h : Handler) (mws : list Middleware) :
  closed s = false ->
  strings_ContainsByte path colon = true ->
  exists s',
    AddHandler s m path h mws = Returned s' /\
    forall r,
      Method r = strings_ToUpper m ->
      pathMatch (strings_Split (strings_Trim path slash) slash) (URL_Path r) = true ->
      (forall final, resolve s r <> Serve final) ->
      resolve s' r = Serve (chainMiddleware h mws).
Proof.
  intros Hc Hp. unfold AddHandler. rewrite Hc, Hp. cbv zeta.
  eexists. split; [reflexivity|]. intros r Hm Hmatch Hunserved.
  destruct (resolve_served_inv s r Hunserved) as [Hk Hscan].
  unfold resolve. cbv zeta. cbn [routers templateRoutes].
  rewrite Hk, templateScan_app, Hscan.
  rewrite templateScan_match; [reflexivity|now symmetry|exact Hmatch|reflexivity].
Qed.

(** X10: a registration never takes a served request away from its
    handler: a request that the stub serves is served by the same composed
    handler after any [AddHandler] of a templated route, and after any
    [AddHandler] of an exact route under another key. *)
Theorem AddHandler_keeps_served (s s' : Stub) (m path : string)
    (h : Handler) (mws : list Middleware) (r : Request) (final : Handler) :
  AddHandler s m path h mws = Returned s' ->
  resolve s r = Serve final ->
  strings_ContainsByte path colon = true \/
  strings_ToUpper (Method r) ++ " " ++ URL_Path r <> strings_ToUpper m ++ " " ++ path ->
  resolve s' r = Serve final.
Proof.
  intros Hadd Hres Hother. unfold AddHandler in Hadd.
  destruct (closed s); [discriminate|]. cbv zeta in Hadd.
  unfold resolve, dispatchKey in *. cbv zeta in *.
  destruct (strings_ContainsByte path colon) eqn:Hp.
  - injection Hadd as <-. cbn [routers templateRoutes].
    destruct (routers s !! (strings_ToUpper (Method r) ++ " " ++ URL_Path r));
      [exact Hres|].
    rewrite templateScan_app.
    destruct (templateScan r (templateRoutes s)) as [f|]; [exact Hres|].
    destruct (exactPathKnown _ _); cbn in Hres;
      [discriminate|destruct (templatePathKnown _ _); discriminate].
  - destruct Hother as [Habs|Hne]; [discriminate|].
    injection Hadd as <-. cbn [routers templateRoutes].
    rewrite lookup_insert_ne by (intros E; apply Hne; now symmetry).
    destruct (routers s !! (strings_ToUpper (Method r) ++ " " ++ URL_Path r));
      [exact Hres|].
    destruct (templateScan r (templateRoutes s)) as [f|]; [exact Hres|].
    destruct (exactPathKnown _ _); cbn in Hres;
      [discriminate|destruct (templatePathKnown _ _); discriminate].
Qed.

(** X11: registering the same templated route a second time changes no
    answer of the dispatcher: the first registration keeps every request. *)
Theorem AddHandler_template_twice (s s1 s2 : Stub) (m path : string)
    (h1 h2 : Handler) (mws1 mws2 : list Middleware) (r : Request) :
  strings_ContainsByte path colon = true ->
  AddHandler s m path h1 mws1 = Returned s1 ->
  AddHandler s1 m path h2 mws2 = Returned s2 ->
  resolve s2 r = resolve s1 r.
Proof.
  intros Hp H1 H2. unfold AddHandler in *. rewrite Hp in *. cbv zeta in *.
  destruct (closed s) eqn:Hc; [discriminate|].
  injection H1 as <-. cbn [closed routers templateRoutes baseURL port Server mux] in H2.
  rewrite ?Hc in H2. injection H2 as <-.
  unfold resolve. cbv zeta. cbn [routers templateRoutes].
  destruct (routers s !! dispatchKey r); [reflexivity|].
  rewrite !templateScan_app, !templatePathKnown_app.
  destruct (templateScan r (templateRoutes s)); [reflexivity|].
  cbn [templateScan templatePathKnown method segments queries info handler middlewares].
  destruct (negb (String.eqb (strings_ToUpper m) (Method r)));
    destruct (negb (pathMatch _ (URL_Path r)));
    destruct (negb (queryMatch ∅ (URL_Query r)));
    rewrite ?orb_false_r, ?orb_true_r; reflexivity.
Qed.

End RegistryProperties.

Lemma AddHandler_then_dispatch_witness :
  exists s',
    AddHandler (host := traceHost) (NewStub []) "get" "/foo" testHandler [middleware1]
    = Returned s' /\
    env (dispatch s' (testRequest "Get" "/foo") freshWorld) =
    ["middleware1-before"; "handler"; "middleware1-after"].
Proof.
  destruct (AddHandler_then_dispatch (host := traceHost) (NewStub []) "get" "/foo"
              testHandler [middleware1] eq_refl eq_refl) as (s' & Hadd & Hserve).
  exists s'. split; [exact Hadd|].
  destruct (Hserve (testRequest "Get" "/foo") eq_refl eq_refl) as [_ Hrun].
  rewrite Hrun. reflexivity.
Defined.

Lemma AddHandler_last_write_wins_witness :
  AddHandler dispatchTestStub "GET" "/foo" testHandler [middleware1] =
  AddHandler (NewStub []) "GET" "/foo" testHandler [middleware1].
Proof.
  apply (AddHandler_last_write_wins (host := traceHost) (NewStub []) dispatchTestStub
           "GET" "/foo" (fun _ w => onResp (WriteHeader http_StatusOK) w) testHandler
           [] [middleware1] eq_refl eq_refl).
Defined.

Lemma resolve_first_template_witness :
  env (dispatch priorityStub (testRequest "GET" "/bar") freshWorld) = ["template-1"].
Proof.
  unfold dispatch.
  rewrite (resolve_first_template (host := traceHost) priorityStub
             (testRequest "GET" "/bar") []
             [{| method := "GET"; segments := [":other"]; queries := ∅;
                 info := {| handler := appendExec "template-2"; middlewares := [] |} |}]
             {| method := "GET"; segments := [":name"]; queries := ∅;
                info := {| handler := appendExec "template-1"; middlewares := [] |} |}
             ltac:(vm_compute; reflexivity) eq_refl
             ltac:(intros tr' Hin; inversion Hin) eq_refl eq_refl eq_refl).
  reflexivity.
Defined.

Lemma AddHandler_template_then_dispatch_witness :
  exists s',
    AddHandler (host := traceHost) (NewStub []) "get" "/users/:id" testHandler []
    = Returned s' /\
    resolve s' {| Method := "GET"; URL_Path := "/users/7/";
                  URL_Query := {[ "page" := ["2"] ]}; Body := "" |}
    = Serve (chainMiddleware testHandler []).
Proof.
  destruct (AddHandler_template_then_dispatch (host := traceHost) (NewStub [])
              "get" "/users/:id" testHandler [] eq_refl eq_refl)
    as (s' & Hadd & Hserve).
  exists s'. split; [exact Hadd|].
  apply Hserve; [reflexivity|reflexivity|].
  intros final H. vm_compute in H. discriminate H.
Defined.

Lemma AddHandler_keeps_served_witness :
  exists s',
    AddHandler dispatchTestStub "GET" "/:anything" testHandler [] = Returned s' /\
    resolve s' (testRequest "GET" "/foo") =
    resolve dispatchTestStub (testRequest "GET" "/foo").
Proof.
  eexists. split; [reflexivity|].
  rewrite (AddHandler_keeps_served (host := traceHost) dispatchTestStub _
             "GET" "/:anything" testHandler [] (testRequest "GET" "/foo")
             (chainMiddleware (fun _ w => onResp (WriteHeader http_StatusOK) w) [])
             eq_refl ltac:(vm_compute; reflexivity) (or_introl eq_refl)).
  vm_compute. reflexivity.
Defined.

Lemma AddHandler_template_twice_witness :
  exists s1 s2,
    AddHandler (host := traceHost) (NewStub []) "GET" "/:name" (appendExec "first") []
    = Returned s1 /\
    AddHandler s1 "GET" "/:name" (appendExec "second") [] = Returned s2 /\
    env (dispatch s2 (testRequest "GET" "/foo") freshWorld) = ["first"].
Proof.
  eexists. eexists. split; [reflexivity|]. split; [reflexivity|].
  unfold dispatch.
  rewrite (AddHandler_template_twice (host := traceHost) (NewStub []) _ _
             "GET" "/:name" (appendExec "first") (appendExec "second") [] []
             (testRequest "GET" "/foo") eq_refl eq_refl eq_refl).
  reflexivity.
Defined.

(** * Further properties of the control plane *)

Section ControlPlaneRoundTrip.
Context `{host : Host}.

Lemma setHeaders_keys (headers : gmap string string) :
  let rec' := map_fold
                (fun k v acc => Header_put (textproto_CanonicalMIMEHeaderKey k) v acc)
                NewRecorder headers in
  (forall k v, HeaderMap rec' !! k = Some v ->
     exists k0, headers !! k0 = Some v /\ textproto_CanonicalMIMEHeaderKey k0 = k) /\
  (forall k0 v0, headers !! k0 = Some v0 ->
     is_Some (HeaderMap rec' !! textproto_CanonicalMIMEHeaderKey k0)).
Proof.
  cbv zeta.
  apply (map_fold_weak_ind
           (fun (acc : ResponseRecorder) (m : gmap string string) =>
              (forall k v, HeaderMap acc !! k = Some v ->
                 exists k0, m !! k0 = Some v /\ textproto_CanonicalMIMEHeaderKey k0 = k) /\
              (forall k0 v0, m !! k0 = Some v0 ->
                 is_Some (HeaderMap acc !! textproto_CanonicalMIMEHeaderKey k0)))).
  - split.
    + intros k v H. cbn in H. rewrite lookup_empty in H. discriminate.
    + intros k0 v0 H. rewrite lookup_empty in H. discriminate.
  - intros i x m acc Hi [IH1 IH2]. cbn [Header_put HeaderMap]. split.
    + intros k v Hk. apply lookup_insert_Some in Hk as [[<- <-]|[Hne Hk]].
      * exists i. split; [apply lookup_insert_eq|reflexivity].
      * destruct (IH1 k v Hk) as (k0 & Hk0 & Hc). exists k0. split; [|exact Hc].
        rewrite lookup_insert_ne; [exact Hk0|]. intros ->. congruence.
    + intros k0 v0 Hk0. apply lookup_insert_Some in Hk0 as [[<- <-]|[Hne Hk0]].
      * rewrite lookup_insert_eq. eauto.
      * apply lookup_insert_is_Some'. right. exact (IH2 k0 v0 Hk0).
Qed.

Lemma responseHandler_fresh (spec : DynamicHandlerSpec.t) (r : Request)
    (e : HandlerState) :
  exists headers,
    responseHandler spec r {| resp := NewRecorder; env := e |} =
    {| resp := {| Code := DynamicHandlerSpec.Status spec; HeaderMap := headers;
                  RespBody := DynamicHandlerSpec.Body spec; wroteHeader := true |};
       env := e |} /\
    headers = HeaderMap
                (map_fold
                   (fun k v acc => Header_put (textproto_CanonicalMIMEHeaderKey k) v acc)
                   NewRecorder (DynamicHandlerSpec.Headers spec)).
Proof.
  unfold responseHandler, onResp. cbv zeta. cbn [resp env].
  destruct (setHeaders_status (DynamicHandlerSpec.Headers spec) NewRecorder)
    as (Hw & _ & Hb). cbv zeta in Hw, Hb.
  set (rec1 := map_fold _ NewRecorder _) in *.
  exists (HeaderMap rec1). split; [|reflexivity].
  assert (Hwh : WriteHeader (DynamicHandlerSpec.Status spec) rec1 =
                {| Code := DynamicHandlerSpec.Status spec; HeaderMap := HeaderMap rec1;
                   RespBody := RespBody rec1; wroteHeader := true |}).
  { unfold WriteHeader. now rewrite Hw. }
  rewrite Hwh.
  destruct (String.eqb_spec (DynamicHandlerSpec.Body spec) "") as [Hbody|Hbody];
    cbn [negb].
  - now rewrite Hb, Hbody.
  - unfold Write, WriteHeader. cbn [wroteHeader Code RespBody HeaderMap].
    now rewrite Hb.
Qed.

(** X12: a handler built by the control plane from a payload whose status
    passes [checkWriteHeaderCode] answers, on a new response recorder, with
    the status and the body of the payload, whatever the request; the
    headers it sets are the headers of the payload, each under the canonical
    form of its key; and it leaves the state of the user's handlers
    alone. *)
Theorem responseHandler_response (spec : DynamicHandlerSpec.t) (r : Request)
    (e : HandlerState) :
  checkWriteHeaderCode (DynamicHandlerSpec.Status spec) = true ->
  Code (resp (responseHandler spec r {| resp := NewRecorder; env := e |}))
    = DynamicHandlerSpec.Status spec /\
  RespBody (resp (responseHandler spec r {| resp := NewRecorder; env := e |}))
    = DynamicHandlerSpec.Body spec /\
  (forall k v,
     HeaderMap (resp (responseHandler spec r {| resp := NewRecorder; env := e |})) !! k
       = Some v ->
     exists k0, DynamicHandlerSpec.Headers spec !! k0 = Some v /\
                textproto_CanonicalMIMEHeaderKey k0 = k) /\
  (forall k0 v0, DynamicHandlerSpec.Headers spec !! k0 = Some v0 ->
     is_Some (HeaderMap (resp (responseHandler spec r {| resp := NewRecorder; env := e |}))
                !! textproto_CanonicalMIMEHeaderKey k0)) /\
  env (responseHandler spec r {| resp := NewRecorder; env := e |}) = e.
Proof.
  intros _.
  destruct (responseHandler_fresh spec r e) as (headers & -> & ->).
  destruct (setHeaders_keys (DynamicHandlerSpec.Headers spec)) as [Hk1 Hk2].
  cbv zeta in Hk1, Hk2. cbn [resp env Code RespBody HeaderMap]. auto.
Qed.

(** X13: a payload without [":"] in its path and without query constraints,
    whose status is 0 or passes [checkWriteHeaderCode], posted to the
    control plane, becomes an exact route: afterwards every request for
    that path whose method is the payload's up to upper-casing is answered,
    on a new response recorder, with the payload's body and its status, 200
    when the payload has status 0. *)
Theorem controlAddHandler_then_dispatch (s : Stub) (r : Request)
    (spec : DynamicHandlerSpec.t) :
  Method r = "POST" ->
  json_Decode (Body r) = inl spec ->
  DynamicHandlerSpec.Method spec <> "" ->
  DynamicHandlerSpec.Path spec <> "" ->
  strings_ContainsByte (DynamicHandlerSpec.Path spec) colon = false ->
  DynamicHandlerSpec.Query spec = ∅ ->
  DynamicHandlerSpec.Status spec = 0%Z \/
  checkWriteHeaderCode (DynamicHandlerSpec.Status spec) = true ->
  forall (r' : Request) (e : HandlerState),
    strings_ToUpper (Method r') = strings_ToUpper (DynamicHandlerSpec.Method spec) ->
    URL_Path r' = DynamicHandlerSpec.Path spec ->
    Code (resp (dispatch (fst (controlAddHandler s r NewRecorder)) r'
                  {| resp := NewRecorder; env := e |}))
      = (if (DynamicHandlerSpec.Status spec =? 0)%Z then 200%Z
         else DynamicHandlerSpec.Status spec) /\
    RespBody (resp (dispatch (fst (controlAddHandler s r NewRecorder)) r'
                      {| resp := NewRecorder; env := e |}))
      = DynamicHandlerSpec.Body spec.
Proof.
  intros Hpost Hdec Hm Hp Hcolon Hq _ r' e Hm' Hp'.
  assert (Hfld : DynamicHandlerSpec.Method (defaultStatus spec)
                   = DynamicHandlerSpec.Method spec /\
                 DynamicHandlerSpec.Path (defaultStatus spec)
                   = DynamicHandlerSpec.Path spec /\
                 DynamicHandlerSpec.Query (defaultStatus spec)
                   = DynamicHandlerSpec.Query spec /\
                 DynamicHandlerSpec.Body (defaultStatus spec)
                   = DynamicHandlerSpec.Body spec /\
                 DynamicHandlerSpec.Status (defaultStatus spec)
                   = (if (DynamicHandlerSpec.Status spec =? 0)%Z then 200%Z
                      else DynamicHandlerSpec.Status spec)).
  { unfold defaultStatus. destruct (DynamicHandlerSpec.Status spec =? 0)%Z; auto. }
  destruct Hfld as (Fm & Fp & Fq & Fb & Fs).
  assert (Hres : resolve (fst (controlAddHandler s r NewRecorder)) r'
                 = Serve (chainMiddleware (responseHandler (defaultStatus spec)) [])).
  { unfold controlAddHandler. rewrite Hpost.
    change (String.eqb "POST" http_MethodPost) with true. cbn [negb]. rewrite Hdec.
    destruct (String.eqb_spec (DynamicHandlerSpec.Method spec) ""); [contradiction|].
    destruct (String.eqb_spec (DynamicHandlerSpec.Path spec) ""); [contradiction|].
    cbn [orb]. cbv zeta. rewrite Fp, Fq, Fm, Hcolon, Hq, map_size_empty.
    cbn [orb Nat.ltb Nat.leb fst].
    apply (resolve_exact _ r' {| handler := responseHandler (defaultStatus spec);
                                 middlewares := [] |}).
    unfold dispatchKey. cbn [routers]. now rewrite Hm', Hp', lookup_insert_eq. }
  unfold dispatch. rewrite Hres, chainMiddleware_nil.
  destruct (responseHandler_fresh (defaultStatus spec) r' e) as (headers & -> & _).
  cbn [resp Code RespBody]. now rewrite Fs, Fb.
Qed.

(** X14: a payload with [":"] in its path or with query constraints, posted
    to the control plane, becomes a templated route at the end of the list
    and leaves the exact map alone.  A request that nothing served before,
    whose method is the upper-cased payload method byte for byte, whose path
    matches the segments and whose query meets the constraints, is answered,
    on a new response recorder, with the payload's body and status when that
    status is 0 (answered as 200) or passes [checkWriteHeaderCode]; a
    request whose path or query does not match is resolved as before. *)
Theorem controlAddHandler_templated (s : Stub) (r : Request)
    (spec : DynamicHandlerSpec.t) :
  Method r = "POST" ->
  json_Decode (Body r) = inl spec ->
  DynamicHandlerSpec.Method spec <> "" ->
  DynamicHandlerSpec.Path spec <> "" ->
  strings_ContainsByte (DynamicHandlerSpec.Path spec) colon = true \/
  DynamicHandlerSpec.Query spec <> ∅ ->
  routers (fst (controlAddHandler s r NewRecorder)) = routers s /\
  (forall (r' : Request) (e : HandlerState),
     Method r' = strings_ToUpper (DynamicHandlerSpec.Method spec) ->
     pathMatch (strings_Split (strings_Trim (DynamicHandlerSpec.Path spec) slash) slash)
               (URL_Path r') = true ->
     queryMatch (DynamicHandlerSpec.Query spec) (URL_Query r') = true ->
     (forall final, resolve s r' <> Serve final) ->
     DynamicHandlerSpec.Status spec = 0%Z \/
     checkWriteHeaderCode (DynamicHandlerSpec.Status spec) = true ->
     Code (resp (dispatch (fst (controlAddHandler s r NewRecorder)) r'
                   {| resp := NewRecorder; env := e |}))
       = (if (DynamicHandlerSpec.Status spec =? 0)%Z then 200%Z
          else DynamicHandlerSpec.Status spec) /\
     RespBody (resp (dispatch (fst (controlAddHandler s r NewRecorder)) r'
                       {| resp := NewRecorder; env := e |}))
       = DynamicHandlerSpec.Body spec) /\
  (forall r' : Request,
     pathMatch (strings_Split (strings_Trim (DynamicHandlerSpec.Path spec) slash) slash)
               (URL_Path r') = false \/
     queryMatch (DynamicHandlerSpec.Query spec) (URL_Query r') = false ->
     resolve (fst (controlAddHandler s r NewRecorder)) r' = resolve s r').
Proof.
  intros Hpost Hdec Hm Hp Htpl.
  assert (Hfld : DynamicHandlerSpec.Method (defaultStatus spec)
                   = DynamicHandlerSpec.Method spec /\
                 DynamicHandlerSpec.Path (defaultStatus spec)
                   = DynamicHandlerSpec.Path spec /\
                 DynamicHandlerSpec.Query (defaultStatus spec)
                   = DynamicHandlerSpec.Query spec /\
                 DynamicHandlerSpec.Body (defaultStatus spec)
                   = DynamicHandlerSpec.Body spec /\
                 DynamicHandlerSpec.Status (defaultStatus spec)
                   = (if (DynamicHandlerSpec.Status spec =? 0)%Z then 200%Z
                      else DynamicHandlerSpec.Status spec)).
  { unfold defaultStatus. destruct (DynamicHandlerSpec.Status spec =? 0)%Z; auto. }
  destruct Hfld as (Fm & Fp & Fq & Fb & Fs).
  assert (Hcond : strings_ContainsByte (DynamicHandlerSpec.Path spec) colon ||
                  (0 <? size (DynamicHandlerSpec.Query spec))%nat = true).
  { destruct Htpl as [->|Hq]; [reflexivity|]. apply orb_true_iff. right.
    apply Nat.ltb_lt. destruct (size (DynamicHandlerSpec.Query spec)) eqn:Hsz; [|lia].
    exfalso. apply Hq. now apply map_size_empty_inv. }
  assert (Hst : fst (controlAddHandler s r NewRecorder) =
                {| routers := routers s;
                   templateRoutes :=
                     (templateRoutes s ++
                      [{| method := strings_ToUpper (DynamicHandlerSpec.Method spec);
                          segments := strings_Split
                                        (strings_Trim (DynamicHandlerSpec.Path spec) slash)
                                        slash;
                          queries := DynamicHandlerSpec.Query spec;
                          info := {| handler := responseHandler (defaultStatus spec);
                                     middlewares := [] |} |}])%list;
                   baseURL := baseURL s; port := port s; Server := Server s;
                   mux := mux s; closed := closed s |}).
  { unfold controlAddHandler. rewrite Hpost.
    change (String.eqb "POST" http_MethodPost) with true. cbn [negb]. rewrite Hdec.
    destruct (String.eqb_spec (DynamicHandlerSpec.Method spec) ""); [contradiction|].
    destruct (String.eqb_spec (DynamicHandlerSpec.Path spec) ""); [contradiction|].
    cbn [orb]. cbv zeta. rewrite Fp, Fq, Fm, Hcond. reflexivity. }
  rewrite Hst. split; [reflexivity|]. split.
  - intros r' e Hm' Hpm Hqm Hunserved _.
    destruct (resolve_served_inv s r' Hunserved) as [Hk Hscan].
    unfold dispatch, resolve. cbv zeta. cbn [routers templateRoutes].
    rewrite Hk, templateScan_app, Hscan.
    rewrite templateScan_match; [|now symmetry|exact Hpm|exact Hqm].
    cbn [info handler middlewares]. rewrite chainMiddleware_nil.
    destruct (responseHandler_fresh (defaultStatus spec) r' e) as (headers & -> & _).
    cbn [resp Code RespBody]. now rewrite Fs, Fb.
  - intros r' Hno. unfold resolve. cbv zeta. cbn [routers templateRoutes].
    rewrite templateScan_app, templatePathKnown_app.
    cbn [templateScan templatePathKnown method segments queries].
    assert (Hskip : forall (A : Type) (x y : A) (b : bool),
              (if b then y
               else if negb (pathMatch
                               (strings_Split
                                  (strings_Trim (DynamicHandlerSpec.Path spec) slash) slash)
                               (URL_Path r')) then y
               else if negb (queryMatch (DynamicHandlerSpec.Query spec) (URL_Query r'))
               then y else x) = y).
    { intros A x y b. destruct b; [reflexivity|].
      destruct Hno as [-> | ->]; [reflexivity|].
      now destruct (negb (pathMatch _ _)). }
    rewrite Hskip.
    replace (templatePathKnown r' (templateRoutes s) ||
             (if negb (pathMatch
                         (strings_Split
                            (strings_Trim (DynamicHandlerSpec.Path spec) slash) slash)
                         (URL_Path r')) then false
              else if negb (queryMatch (DynamicHandlerSpec.Query spec) (URL_Query r'))
              then false else true))
      with (templatePathKnown r' (templateRoutes s)).
    + now destruct (templateScan r' (templateRoutes s)).
    + rewrite (Hskip bool true false false). now rewrite orb_false_r.
Qed.

End ControlPlaneRoundTrip.

(** * Further properties of the life cycle *)

Section LifecycleExtras.
Context `{host : Host}.

(** X15: the life-cycle fields stay consistent: a new stub satisfies
    [lifecycleInvariant], and [AddHandler], [Start] (whether it binds, fails
    to bind or refuses a second start), [Close] and the control plane all
    keep it. *)
Theorem lifecycleInvariant_kept :
  (forall opts, lifecycleInvariant (NewStub opts)) /\
  (forall s m path h mws s',
     lifecycleInvariant s -> AddHandler s m path h mws = Returned s' ->
     lifecycleInvariant s') /\
  (forall s listen, lifecycleInvariant s -> lifecycleInvariant (fst (Start listen s))) /\
  (forall s, lifecycleInvariant s -> lifecycleInvariant (Close s)) /\
  (forall s r w, lifecycleInvariant s -> lifecycleInvariant (fst (controlAddHandler s r w))).
Proof.
  split; [|split; [|split; [|split]]].
  - intros opts. unfold lifecycleInvariant. cbn. auto.
  - intros s m path h mws s' Hinv Hadd. unfold AddHandler in Hadd.
    destruct (closed s) eqn:Hc; [discriminate|]. cbv zeta in Hadd.
    destruct (strings_ContainsByte path colon); injection Hadd as <-;
      unfold lifecycleInvariant in *; cbn [Server closed baseURL];
      rewrite ?Hc in *; exact Hinv.
  - intros s listen Hinv. unfold Start.
    destruct (Server s) as [srv|] eqn:Hs.
    + cbn [fst]. exact Hinv.
    + cbv zeta. destruct (listen "tcp" (net_JoinHostPort "" (port s))) as [ln|err];
        unfold lifecycleInvariant in *; rewrite ?Hs in *;
        cbn [fst Server closed baseURL srvURL srvListener srvClosed].
      * destruct Hinv as [Hc _]. auto.
      * exact Hinv.
  - intros s Hinv. unfold Close. destruct (Server s) as [srv|] eqn:Hs; [|exact Hinv].
    destruct (closed s) eqn:Hc; cbn [negb]; [exact Hinv|].
    unfold lifecycleInvariant in *. rewrite Hs in Hinv.
    cbn [Server closed baseURL Server_Close srvURL srvListener srvClosed].
    destruct Hinv as (Hu & Ha & _). auto.
  - intros s r w Hinv. unfold controlAddHandler.
    destruct (negb (String.eqb (Method r) http_MethodPost)); [exact Hinv|].
    destruct (json_Decode (Body r)) as [spec|err]; [|exact Hinv].
    destruct (_ || _); [exact Hinv|]. cbv zeta.
    destruct (_ || _); exact Hinv.
Qed.

(** X16: on a stub that satisfies [lifecycleInvariant], the URL accessor
    returns the URL made from the listener's address while the server is
    started and not closed, and the empty string in every other state. *)
Theorem URL_while_running (s : Stub) :
  lifecycleInvariant s ->
  URL s = match Server s with
          | Some srv => if srvClosed srv then ""
                        else "http://" ++ Addr (srvListener srv)
          | None => ""
          end.
Proof.
  unfold lifecycleInvariant, URL. destruct (Server s) as [srv|]; [|reflexivity].
  intros (Hu & Ha & Hc). rewrite Hc. destruct (closed s); [reflexivity|].
  now rewrite Hu, Ha.
Qed.

(** X17: once [Start] has bound its listener the stub reports the URL of
    the listener and refuses every further [Start]; after [Close] it
    refuses [Start] as well, since the server stays set, and [AddHandler]
    panics, while between [Start] and [Close] [AddHandler] still
    registers. *)
Theorem Start_then_Close (s : Stub)
    (listen listen' : string -> string -> Listener + error) (ln : Listener) :
  Server s = None ->
  closed s = false ->
  listen "tcp" (net_JoinHostPort "" (port s)) = inl ln ->
  snd (Start listen s) = None /\
  URL (fst (Start listen s)) = "http://" ++ Addr ln /\
  Start listen' (fst (Start listen s)) =
    (fst (Start listen s), Some (errorString "stub server is already started")) /\
  Start listen' (Close (fst (Start listen s))) =
    (Close (fst (Start listen s)), Some (errorString "stub server is already started")) /\
  URL (Close (fst (Start listen s))) = "" /\
  (forall m path h mws,
     exists s', AddHandler (fst (Start listen s)) m path h mws = Returned s') /\
  (forall m path h mws,
     AddHandler (Close (fst (Start listen s))) m path h mws =
     Panicked "cannot add handlers on a closed stub server").
Proof.
  intros Hs Hc Hl.
  assert (HS : Start listen s =
               ({| routers := routers s; templateRoutes := templateRoutes s;
                   baseURL := "http://" ++ Addr ln; port := port s;
                   Server := Some {| srvListener := ln; srvHandler := mux s;
                                     srvURL := "http://" ++ Addr ln;
                                     srvClosed := false |};
                   mux := mux s; closed := false |}, None)).
  { unfold Start. rewrite Hs. cbv zeta. rewrite Hl, Hc. reflexivity. }
  rewrite HS. cbn [fst snd].
  split; [reflexivity|]. split; [reflexivity|]. split; [reflexivity|].
  split; [reflexivity|]. split; [reflexivity|]. split.
  - intros m path h mws. unfold AddHandler. cbn [closed]. cbv zeta.
    destruct (strings_ContainsByte path colon); eexists; reflexivity.
  - intros m path h mws. reflexivity.
Qed.

Lemma mux_match_NewStub (path : string) :
  mux_match (HandleFunc "/" dispatchFn
               (HandleFunc "/readyz" readyzFn
                  (HandleFunc "/_control/handlers" controlAddHandlerFn http_NewServeMux)))
            path =
  Some (if String.eqb "/_control/handlers" path then controlAddHandlerFn
        else if String.eqb "/readyz" path then readyzFn
        else dispatchFn).
Proof.
  unfold mux_match, HandleFunc, http_NewServeMux. cbn [app find fst snd].
  destruct (String.eqb "/_control/handlers" path); [reflexivity|].
  destruct (String.eqb "/readyz" path); [reflexivity|].
  destruct (String.eqb "/" path); reflexivity.
Qed.

(** X18: a route registered after [Start] under a clean path is served by
    the running server: the server holds the mux built by [NewStub], whose
    root pattern hands every clean path but the two reserved ones to the
    dispatcher, and the dispatcher reads the registry as it is at the time
    of the request. *)
Theorem Server_serves_route_added_after_Start (opts : list Option)
    (listen : string -> string -> Listener + error) (ln : Listener)
    (m path : string) (h : Handler) (mws : list Middleware) :
  listen "tcp" (net_JoinHostPort "" (port (NewStub opts))) = inl ln ->
  strings_ContainsByte path colon = false ->
  isCleanPath path = true ->
  path <> "/readyz" -> path <> "/_control/handlers" ->
  exists srv s',
    Server (fst (Start listen (NewStub opts))) = Some srv /\
    AddHandler (fst (Start listen (NewStub opts))) m path h mws = Returned s' /\
    forall r w,
      strings_ToUpper (Method r) = strings_ToUpper m -> URL_Path r = path ->
      Server_ServeHTTP srv s' r w = Returned (s', chainMiddleware h mws r w).
Proof.
  intros Hl Hcolon _ Hr Hc.
  assert (HS : Start listen (NewStub opts) =
               ({| routers := ∅; templateRoutes := [];
                   baseURL := "http://" ++ Addr ln; port := port (NewStub opts);
                   Server := Some {| srvListener := ln; srvHandler := mux (NewStub opts);
                                     srvURL := "http://" ++ Addr ln;
                                     srvClosed := false |};
                   mux := mux (NewStub opts); closed := false |}, None)).
  { unfold Start. cbn [Server NewStub]. cbv zeta. cbn [port] in Hl |- *.
    rewrite Hl. reflexivity. }
  rewrite HS. cbn [fst]. eexists. 
  destruct (AddHandler_exact_served
              {| routers := ∅; templateRoutes := [];
                 baseURL := "http://" ++ Addr ln; port := port (NewStub opts);
                 Server := Some {| srvListener := ln; srvHandler := mux (NewStub opts);
                                   srvURL := "http://" ++ Addr ln;
                                   srvClosed := false |};
                 mux := mux (NewStub opts); closed := false |}
              m path h mws eq_refl Hcolon) as (s' & Hadd & Hserve).
  exists s'. split; [reflexivity|]. split; [exact Hadd|].
  intros r w Hm Hp. unfold Server_ServeHTTP. cbn [srvHandler NewStub mux].
  rewrite mux_match_NewStub, Hp.
  destruct (String.eqb_spec "/_control/handlers" path) as [E|_];
    [exfalso; apply Hc; now symmetry|].
  destruct (String.eqb_spec "/readyz" path) as [E|_];
    [exfalso; apply Hr; now symmetry|].
  f_equal. f_equal. exact (proj2 (Hserve r Hm Hp) w).
Qed.

(** X19: the readiness probe cannot be replaced: whatever the registry
    holds, a server created from a new stub answers [/readyz] itself, 200
    with the body ["ok"] to a GET and 405 to any other method, and leaves
    the stub as it is. *)
Theorem readyz_reserved (opts : list Option) (srv : httptest_Server) (s : Stub)
    (r : Request) (e : HandlerState) :
  srvHandler srv = mux (NewStub opts) ->
  URL_Path r = "/readyz" ->
  exists w',
    Server_ServeHTTP srv s r {| resp := NewRecorder; env := e |} = Returned (s, w') /\
    env w' = e /\
    (Method r = "GET" -> Code (resp w') = 200%Z /\ RespBody (resp w') = "ok") /\
    (Method r <> "GET" -> Code (resp w') = 405%Z).
Proof.
  intros Hh Hp. unfold Server_ServeHTTP. rewrite Hh. cbn [NewStub mux].
  rewrite mux_match_NewStub, Hp. cbn [String.eqb Ascii.eqb Bool.eqb].
  eexists. split; [reflexivity|]. unfold readyz.
  destruct (String.eqb_spec (Method r) http_MethodGet) as [E|N]; cbn [negb].
  - split; [reflexivity|]. split; [intros _; split; reflexivity|].
    intros H. contradiction.
  - split; [reflexivity|]. split; [intros H; contradiction|]. intros _. reflexivity.
Qed.

End LifecycleExtras.

Lemma responseHandler_response_witness :
  is_Some
    (HeaderMap
       (resp (responseHandler (host := traceHost)
                {| DynamicHandlerSpec.Method := "GET"; DynamicHandlerSpec.Path := "/dynamic";
                   DynamicHandlerSpec.Query := ∅; DynamicHandlerSpec.Status := 201;
                   DynamicHandlerSpec.Body := "created";
                   DynamicHandlerSpec.Headers := {[ "Content-Type" := "text/plain" ]} |}
                (testRequest "GET" "/dynamic") freshWorld))
     !! "Content-Type").
Proof.
  apply (proj1 (proj2 (proj2 (proj2
           (responseHandler_response (host := traceHost)
              {| DynamicHandlerSpec.Method := "GET"; DynamicHandlerSpec.Path := "/dynamic";
                 DynamicHandlerSpec.Query := ∅; DynamicHandlerSpec.Status := 201;
                 DynamicHandlerSpec.Body := "created";
                 DynamicHandlerSpec.Headers := {[ "Content-Type" := "text/plain" ]} |}
              (testRequest "GET" "/dynamic") [] eq_refl))))
           "Content-Type" "text/plain").
  reflexivity.
Defined.

Lemma controlAddHandler_then_dispatch_witness :
  Code (resp (dispatch
                (fst (controlAddHandler (host := traceHost) (NewStub [])
                        (controlRequest "dynamic-without-status") NewRecorder))
                (testRequest "GET" "/dynamic") freshWorld)) = 200%Z /\
  RespBody (resp (dispatch
                    (fst (controlAddHandler (host := traceHost) (NewStub [])
                            (controlRequest "dynamic-without-status") NewRecorder))
                    (testRequest "GET" "/dynamic") freshWorld)) = "created".
Proof.
  refine (controlAddHandler_then_dispatch (host := traceHost) (NewStub [])
            (controlRequest "dynamic-without-status") _ eq_refl eq_refl _ _ eq_refl eq_refl
            (or_introl eq_refl)
            (testRequest "GET" "/dynamic") [] eq_refl eq_refl);
    discriminate.
Defined.

Lemma controlAddHandler_templated_witness :
  Code (resp (dispatch ordersStub (ordersRequest "GET" "shipped") freshWorld)) = 200%Z /\
  RespBody (resp (dispatch ordersStub (ordersRequest "GET" "shipped") freshWorld))
  = "matched".
Proof.
  refine (proj1 (proj2 (controlAddHandler_templated (host := traceHost) (NewStub [])
                          (controlRequest "orders-shipped") _ eq_refl eq_refl _ _
                          (or_introl eq_refl)))
            (ordersRequest "GET" "shipped") [] eq_refl eq_refl _ _ (or_intror eq_refl));
    try discriminate.
  all: first [ vm_compute; reflexivity
             | intros final H; vm_compute in H; discriminate H ].
Defined.

Lemma lifecycleInvariant_kept_witness :
  lifecycleInvariant (Close (fst (Start listenFree secondStub))).
Proof.
  destruct (lifecycleInvariant_kept (host := traceHost)) as (Hnew & _ & Hstart & Hclose & _).
  apply Hclose, Hstart, Hnew.
Defined.

Lemma URL_while_running_witness :
  URL (fst (Start listenFree secondStub)) = "http://[::]:12345".
Proof.
  rewrite (URL_while_running (host := traceHost) (fst (Start listenFree secondStub))).
  - reflexivity.
  - unfold lifecycleInvariant. cbn. auto.
Defined.

Lemma Start_then_Close_witness :
  URL (fst (Start listenFree secondStub)) = "http://[::]:12345" /\
  snd (Start listenOccupied (fst (Start listenFree secondStub))) =
  Some (errorString "stub server is already started") /\
  snd (Start listenFree (Close (fst (Start listenFree secondStub)))) =
  Some (errorString "stub server is already started").
Proof.
  destruct (Start_then_Close (host := traceHost) secondStub listenFree listenOccupied
              {| Addr := "[::]:12345" |} eq_refl eq_refl eq_refl)
    as (_ & Hurl & Hagain & _).
  destruct (Start_then_Close (host := traceHost) secondStub listenFree listenFree
              {| Addr := "[::]:12345" |} eq_refl eq_refl eq_refl)
    as (_ & _ & _ & Hclosed & _).
  split; [exact Hurl|]. split.
  - now rewrite Hagain.
  - now rewrite Hclosed.
Defined.

Lemma Server_serves_route_added_after_Start_witness :
  exists srv s',
    Server (fst (Start listenFree secondStub)) = Some srv /\
    AddHandler (fst (Start listenFree secondStub)) "GET" "/after-start" testHandler []
    = Returned s' /\
    fmap (fun sw => env (snd sw))
      (match Server_ServeHTTP srv s' (testRequest "GET" "/after-start") freshWorld with
       | Returned sw => Some sw
       | Panicked _ => None
       end) = Some ["handler"].
Proof.
  destruct (Server_serves_route_added_after_Start (host := traceHost)
              [WithPort "12345"] listenFree {| Addr := "[::]:12345" |}
              "GET" "/after-start" testHandler [] eq_refl eq_refl eq_refl
              ltac:(discriminate) ltac:(discriminate))
    as (srv & s' & Hsrv & Hadd & Hserve).
  exists srv, s'. split; [exact Hsrv|]. split; [exact Hadd|].
  rewrite (Hserve (testRequest "GET" "/after-start") freshWorld eq_refl eq_refl).
  reflexivity.
Defined.

Lemma readyz_reserved_witness :
  exists w',
    Server_ServeHTTP
      {| srvListener := {| Addr := "[::]:12345" |};
         srvHandler := mux (NewStub (host := traceHost) []);
         srvURL := "http://[::]:12345"; srvClosed := false |}
      (returned (AddHandler (NewStub []) "GET" "/readyz" testHandler []) (NewStub []))
      (testRequest "GET" "/readyz") freshWorld
    = Returned
        (returned (AddHandler (NewStub []) "GET" "/readyz" testHandler []) (NewStub []),
         w') /\
    env w' = [] /\ RespBody (resp w') = "ok".
Proof.
  destruct (readyz_reserved (host := traceHost) []
              {| srvListener := {| Addr := "[::]:12345" |};
                 srvHandler := mux (NewStub (host := traceHost) []);
                 srvURL := "http://[::]:12345"; srvClosed := false |}
              (returned (AddHandler (NewStub []) "GET" "/readyz" testHandler [])
                 (NewStub []))
              (testRequest "GET" "/readyz") [] eq_refl eq_refl)
    as (w' & Hserve & Henv & Hget & _).
  exists w'. split; [exact Hserve|]. split; [exact Henv|].
  exact (proj2 (Hget eq_refl)).
Defined.

(** * The earlier variant: grouping the routes by path *)

Section LegacyProperties.
Context `{host : Host}.

Lemma splitFirstSpace_sound (key m p : string) :
  Legacy.splitFirstSpace key = Some (m, p) ->
  key = m ++ " " ++ p /\ strings_ContainsByte m " "%char = false.
Proof.
  revert m p. induction key as [|a key IH]; intros m p; cbn [Legacy.splitFirstSpace].
  - discriminate.
  - destruct (Ascii.eqb_spec a " "%char) as [->|Na].
    + intros H. injection H as <- <-. split; reflexivity.
    + destruct (Legacy.splitFirstSpace key) as [[m' p']|]; [|discriminate].
      intros H. injection H as <- <-.
      destruct (IH m' p' eq_refl) as [-> Hm']. split; [reflexivity|].
      cbn [strings_ContainsByte].
      destruct (Ascii.eqb_spec a " "%char); [contradiction|exact Hm'].
Qed.

Lemma splitFirstSpace_complete (m p : string) :
  strings_ContainsByte m " "%char = false ->
  Legacy.splitFirstSpace (m ++ " " ++ p) = Some (m, p).
Proof.
  induction m as [|a m IH]; intros Hm.
  - reflexivity.
  - change (Legacy.splitFirstSpace (String a (m ++ " " ++ p)) = Some (String a m, p)).
    cbn [strings_ContainsByte] in Hm. apply orb_false_iff in Hm as [Ha Hm].
    cbn [Legacy.splitFirstSpace]. rewrite Ha, (IH Hm). reflexivity.
Qed.

Lemma splitFirstSpace_spec (key m p : string) :
  Legacy.splitFirstSpace key = Some (m, p) <->
  key = m ++ " " ++ p /\ strings_ContainsByte m " "%char = false.
Proof.
  split; [apply splitFirstSpace_sound|].
  intros [-> Hm]. now apply splitFirstSpace_complete.
Qed.

Lemma splitFirstSpace_is_Some (a b : string) :
  is_Some (Legacy.splitFirstSpace (a ++ " " ++ b)).
Proof.
  induction a as [|c a IH].
  - change (is_Some (Legacy.splitFirstSpace (String " " b))). cbn. eauto.
  - change (is_Some (Legacy.splitFirstSpace (String c (a ++ " " ++ b)))).
    cbn [Legacy.splitFirstSpace]. destruct (Ascii.eqb c " "); [eauto|].
    destruct IH as [[m p] ->]. eauto.
Qed.

(** The grouping holds a route under its path and method exactly when the
    exact map holds it under a key that splits into that method and path. *)
Lemma groupByPath_spec (rts : gmap string routeInfo) :
  (forall key ri, rts !! key = Some ri -> is_Some (Legacy.splitFirstSpace key)) ->
  exists byPath,
    Legacy.groupByPath rts = Returned byPath /\
    forall m p ri,
      (byPath !! p ≫= (fun mm => mm !! m)) = Some ri <->
      exists key, rts !! key = Some ri /\ Legacy.splitFirstSpace key = Some (m, p).
Proof.
  unfold Legacy.groupByPath.
  apply (map_fold_weak_ind
           (fun (acc : outcome (gmap string (gmap string routeInfo)))
                (rts0 : gmap string routeInfo) =>
              (forall key ri, rts0 !! key = Some ri ->
                 is_Some (Legacy.splitFirstSpace key)) ->
              exists byPath,
                acc = Returned byPath /\
                forall m p ri,
                  (byPath !! p ≫= (fun mm => mm !! m)) = Some ri <->
                  exists key, rts0 !! key = Some ri /\
                              Legacy.splitFirstSpace key = Some (m, p))).
  - intros _. exists ∅. split; [reflexivity|]. intros m p ri.
    rewrite lookup_empty. cbn. split; [discriminate|].
    intros (key & H & _). rewrite lookup_empty in H. discriminate.
  - intros i x rts0 acc Hi IH Hkeys.
    destruct IH as (byPath & -> & IH).
    { intros key ri Hk. apply (Hkeys key ri).
      rewrite lookup_insert_ne; [exact Hk|]. intros ->. congruence. }
    destruct (Hkeys i x (lookup_insert_eq _ _ _)) as [[mi pi] Hsplit].
    rewrite Hsplit. eexists. split; [reflexivity|].
    intros m p ri. destruct (decide (p = pi)) as [->|Hp].
    + rewrite lookup_insert_eq. cbn [mbind option_bind].
      destruct (decide (m = mi)) as [->|Hm].
      * rewrite lookup_insert_eq. split.
        -- intros H. injection H as <-. exists i. split; [apply lookup_insert_eq|exact Hsplit].
        -- intros (key & Hk & Hs).
           assert (key = i) as ->.
           { apply splitFirstSpace_spec in Hs as [-> _].
             apply splitFirstSpace_spec in Hsplit as [-> _]. reflexivity. }
           rewrite lookup_insert_eq in Hk. exact Hk.
      * rewrite lookup_insert_ne by (intros E; apply Hm; now symmetry).
        assert (Hold : default ∅ (byPath !! pi) !! m
                       = (byPath !! pi ≫= (fun mm => mm !! m))).
        { destruct (byPath !! pi); [reflexivity|]. cbn. apply lookup_empty. }
        rewrite Hold, IH. split.
        -- intros (key & Hk & Hs). exists key. split; [|exact Hs].
           rewrite lookup_insert_ne; [exact Hk|]. intros ->. congruence.
        -- intros (key & Hk & Hs). exists key. split; [|exact Hs].
           rewrite lookup_insert_ne in Hk; [exact Hk|]. intros ->. congruence.
    + rewrite lookup_insert_ne by (intros E; apply Hp; now symmetry).
      rewrite IH. split.
      * intros (key & Hk & Hs). exists key. split; [|exact Hs].
        rewrite lookup_insert_ne; [exact Hk|]. intros ->. congruence.
      * intros (key & Hk & Hs). exists key. split; [|exact Hs].
        rewrite lookup_insert_ne in Hk; [exact Hk|]. intros ->. congruence.
Qed.

End LegacyProperties.

Section LegacyExtras.
Context `{host : Host}.

Lemma groupByPath_panics (rts : gmap string routeInfo) :
  (exists key ri, rts !! key = Some ri /\ Legacy.splitFirstSpace key = None) ->
  exists msg, Legacy.groupByPath rts = Panicked msg.
Proof.
  unfold Legacy.groupByPath.
  apply (map_fold_weak_ind
           (fun (acc : outcome (gmap string (gmap string routeInfo)))
                (rts0 : gmap string routeInfo) =>
              (exists key ri, rts0 !! key = Some ri /\
                              Legacy.splitFirstSpace key = None) ->
              exists msg, acc = Panicked msg)).
  - intros (key & ri & H & _). rewrite lookup_empty in H. discriminate.
  - intros i x rts0 acc Hi IH (key & ri & Hk & Hs).
    destruct acc as [byPath|msg]; [|eauto].
    apply lookup_insert_Some in Hk as [[<- <-]|[_ Hk]].
    + rewrite Hs. eauto.
    + destruct IH as [msg Hmsg]; [eauto|discriminate].
Qed.

(** X20: the loop of the earlier [Start] that groups the exact routes by
    path loses and invents nothing: when every key holds a space, the
    grouping holds a route under a path and a method exactly when the exact
    map holds it under the key method, space, path, the method being free of
    spaces; and when some key holds no space, the loop panics. *)
Theorem Legacy_groupByPath_round_trip (rts : gmap string routeInfo) :
  ((forall key ri, rts !! key = Some ri -> is_Some (Legacy.splitFirstSpace key)) ->
   exists byPath,
     Legacy.groupByPath rts = Returned byPath /\
     forall m p ri,
       (byPath !! p ≫= (fun mm => mm !! m)) = Some ri <->
       (rts !! (m ++ " " ++ p) = Some ri /\ strings_ContainsByte m " "%char = false)) /\
  ((exists key ri, rts !! key = Some ri /\ Legacy.splitFirstSpace key = None) ->
   exists msg, Legacy.groupByPath rts = Panicked msg).
Proof.
  split; [|apply groupByPath_panics].
  intros Hkeys. destruct (groupByPath_spec rts Hkeys) as (byPath & Hg & Hspec).
  exists byPath. split; [exact Hg|]. intros m p ri. rewrite Hspec. split.
  - intros (key & Hk & Hs). apply splitFirstSpace_spec in Hs as [-> Hm]. auto.
  - intros [Hk Hm]. exists (m ++ " " ++ p). split; [exact Hk|].
    now apply splitFirstSpace_complete.
Qed.

Lemma Legacy_NewStub_keys (key : string) (ri : routeInfo) :
  Legacy.routers Legacy.NewStub !! key = Some ri ->
  is_Some (Legacy.splitFirstSpace key).
Proof.
  intros Hk. unfold Legacy.NewStub, Legacy.AddHandler in Hk.
  cbn [Legacy.Server Legacy.routers] in Hk.
  apply lookup_insert_Some in Hk as [[<- _]|[_ Hk]].
  - apply splitFirstSpace_is_Some.
  - rewrite lookup_empty in Hk. discriminate.
Qed.

(** Every path of the grouping is the path of a route. *)
Lemma groupByPath_paths (rts : gmap string routeInfo)
    (byPath : gmap string (gmap string routeInfo)) (p : string) :
  Legacy.groupByPath rts = Returned byPath ->
  is_Some (byPath !! p) ->
  exists key ri m, rts !! key = Some ri /\ Legacy.splitFirstSpace key = Some (m, p).
Proof.
  unfold Legacy.groupByPath. revert byPath.
  apply (map_fold_weak_ind
           (fun (acc : outcome (gmap string (gmap string routeInfo)))
                (rts0 : gmap string routeInfo) =>
              forall byPath, acc = Returned byPath -> is_Some (byPath !! p) ->
              exists key ri m, rts0 !! key = Some ri /\
                               Legacy.splitFirstSpace key = Some (m, p))).
  - intros byPath H. injection H as <-. rewrite lookup_empty.
    intros [x Hx]. discriminate.
  - intros i x rts0 acc Hi IH byPath Hacc Hp.
    destruct acc as [byPath0|msg]; [|discriminate].
    destruct (Legacy.splitFirstSpace i) as [[mi pi]|] eqn:Hsplit; [|discriminate].
    injection Hacc as <-. destruct (decide (p = pi)) as [->|Hne].
    + exists i, x, mi. split; [apply lookup_insert_eq|exact Hsplit].
    + rewrite lookup_insert_ne in Hp by (intros E; apply Hne; now symmetry).
      destruct (IH byPath0 eq_refl Hp) as (key & ri & m & Hk & Hs).
      exists key, ri, m. split; [|exact Hs].
      rewrite lookup_insert_ne; [exact Hk|]. intros ->. congruence.
Qed.

(** When [HandleFunc] accepts each path on a mux that holds the paths
    before it, the loop registers all entries, in their order. *)
Lemma registerPaths_accepted (handleFuncPanic : list string -> string -> option string)
    (allowed : string -> Prop) (entries : list (string * gmap string routeInfo)) :
  (forall registered p,
     allowed p -> (forall q, q ∈ registered -> allowed q) -> p ∉ registered ->
     handleFuncPanic registered p = None) ->
  NoDup (map fst entries) ->
  (forall p, p ∈ map fst entries -> allowed p) ->
  Legacy.registerPaths handleFuncPanic entries = Returned entries.
Proof.
  intros Hhf. unfold Legacy.registerPaths.
  enough (G : forall (rest done : list (string * gmap string routeInfo)),
             NoDup (map fst (done ++ rest)) ->
             (forall p, p ∈ map fst (done ++ rest) -> allowed p) ->
             fold_left
               (fun acc entry =>
                  match acc with
                  | Panicked msg => Panicked msg
                  | Returned m =>
                      match handleFuncPanic (map fst m) (fst entry) with
                      | Some msg => Panicked msg
                      | None => Returned (m ++ [entry])%list
                      end
                  end) rest (Returned done) = Returned (done ++ rest)%list).
  { intros Hnd Hall. exact (G entries [] Hnd Hall). }
  induction rest as [|entry rest IH]; intros done Hnd Hall.
  - cbn [fold_left]. now rewrite app_nil_r.
  - cbn [fold_left].
    assert (Hfresh : handleFuncPanic (map fst done) (fst entry) = None).
    { apply Hhf.
      - apply Hall. rewrite map_app. apply elem_of_app. right. cbn. left.
      - intros q Hq. apply Hall. rewrite map_app. apply elem_of_app. now left.
      - rewrite map_app in Hnd. apply NoDup_app in Hnd as (_ & Hdisj & _).
        intros Hin. apply (Hdisj (fst entry) Hin). cbn. left. }
    rewrite Hfresh.
    replace (done ++ entry :: rest)%list with ((done ++ [entry]) ++ rest)%list
      in * by (now rewrite <- app_assoc).
    apply IH; assumption.
Qed.

Lemma registerPaths_byPath (handleFuncPanic : list string -> string -> option string)
    (s : Legacy.Stub) (byPath : gmap string (gmap string routeInfo)) :
  Legacy.groupByPath (Legacy.routers s) = Returned byPath ->
  Legacy.acceptsPaths handleFuncPanic s ->
  Legacy.registerPaths handleFuncPanic (map_to_list byPath)
  = Returned (map_to_list byPath).
Proof.
  intros Hg Hacc.
  apply (registerPaths_accepted handleFuncPanic (Legacy.isPath s)).
  - exact Hacc.
  - apply NoDup_fst_map_to_list.
  - intros p Hp. apply list_elem_of_fmap in Hp as ([p' mm] & -> & Hin).
    apply elem_of_map_to_list in Hin. cbn.
    apply (groupByPath_paths (Legacy.routers s) byPath p' Hg). eauto.
Qed.

(** X21: in the earlier variant, when [HandleFunc] accepts the paths of the
    stub, a [Start] that binds registers, for every exact route whose method
    holds no space, a closure under the path of the route that runs the
    composed handler of the route for requests with exactly that method and
    answers 405 for a method under which the path has no route; it reports
    the URL of the listener, and from then on [AddHandler] panics. *)
Theorem Legacy_Start_serves_routes (s : Legacy.Stub)
    (handleFuncPanic : list string -> string -> option string)
    (listen : string -> string -> Listener + error) (opts : list Legacy.StartOption)
    (ln : Listener) :
  Legacy.mux s = None -> Legacy.Server s = None ->
  (forall key ri, Legacy.routers s !! key = Some ri ->
                  is_Some (Legacy.splitFirstSpace key)) ->
  Legacy.acceptsPaths handleFuncPanic s ->
  listen "tcp"
    (net_JoinHostPort ""
       (Legacy.cfg_port (fold_left (fun cfg opt => opt cfg) opts
                           {| Legacy.cfg_port := "" |}))) = inl ln ->
  exists s' ms,
    Legacy.Start handleFuncPanic listen opts s = Returned (s', None) /\
    Legacy.routers s' = Legacy.routers s /\
    Legacy.baseURL s' = "http://" ++ Addr ln /\
    (exists srv, Legacy.Server s' = Some srv /\ Legacy.srvHandler srv = Some ms) /\
    (forall m p ri,
       Legacy.routers s !! (m ++ " " ++ p) = Some ri ->
       strings_ContainsByte m " "%char = false ->
       exists methodMap,
         (p, methodMap) ∈ ms /\
         (forall r w, Method r = m ->
            Legacy.pathHandler methodMap r w =
            chainMiddleware (handler ri) (middlewares ri) r w) /\
         (forall r e, Legacy.routers s !! (Method r ++ " " ++ p) = None ->
            Code (resp (Legacy.pathHandler methodMap r {| resp := NewRecorder; env := e |}))
            = 405%Z)) /\
    (forall m p h mws,
       Legacy.AddHandler s' m p h mws =
       Panicked "Cannot add handlers after the server has started.").
Proof.
  intros Hm Hs Hkeys Hacc Hl.
  destruct (groupByPath_spec (Legacy.routers s) Hkeys) as (byPath & Hg & Hspec).
  unfold Legacy.Start. rewrite Hm, Hs, Hg.
  rewrite (registerPaths_byPath handleFuncPanic s byPath Hg Hacc).
  cbv zeta. rewrite Hl.
  eexists. exists (map_to_list byPath). split; [reflexivity|].
  cbn [Legacy.routers Legacy.baseURL Legacy.Server Legacy.srvURL Legacy.srvHandler].
  split; [reflexivity|]. split; [reflexivity|]. split; [eauto|]. split.
  - intros m p ri Hk Hsp.
    assert (Hin : (byPath !! p ≫= (fun mm => mm !! m)) = Some ri).
    { apply Hspec. exists (m ++ " " ++ p). split; [exact Hk|].
      now apply splitFirstSpace_complete. }
    destruct (byPath !! p) as [mm|] eqn:Hp; [|discriminate]. cbn in Hin.
    exists mm. split; [now apply elem_of_map_to_list|]. split.
    + intros r w Hr. unfold Legacy.pathHandler. now rewrite Hr, Hin.
    + intros r e Hnone. unfold Legacy.pathHandler.
      destruct (mm !! Method r) as [ri'|] eqn:Hr; [|reflexivity].
      exfalso. assert (Hex : (byPath !! p ≫= (fun mm0 => mm0 !! Method r)) = Some ri')
        by (rewrite Hp; exact Hr).
      apply Hspec in Hex as (key & Hkey & Hsplit).
      apply splitFirstSpace_sound in Hsplit as [-> _]. congruence.
  - intros m p h mws. reflexivity.
Qed.

(** X22: the keys that the earlier variant builds always hold a space: the
    stub made by [NewStub] has only such keys and [AddHandler] keeps that;
    on such a stub the index [parts[1]] of [Start] is always in range, so
    that [Start] returns, whatever the listener answers, whenever
    [HandleFunc] accepts the paths of the stub. *)
Theorem Legacy_Start_returns :
  (forall key ri, Legacy.routers Legacy.NewStub !! key = Some ri ->
                  is_Some (Legacy.splitFirstSpace key)) /\
  (forall s m path h mws s',
     (forall key ri, Legacy.routers s !! key = Some ri ->
                     is_Some (Legacy.splitFirstSpace key)) ->
     Legacy.AddHandler s m path h mws = Returned s' ->
     forall key ri, Legacy.routers s' !! key = Some ri ->
                    is_Some (Legacy.splitFirstSpace key)) /\
  (forall s handleFuncPanic listen opts,
     (forall key ri, Legacy.routers s !! key = Some ri ->
                     is_Some (Legacy.splitFirstSpace key)) ->
     (exists byPath, Legacy.groupByPath (Legacy.routers s) = Returned byPath) /\
     (Legacy.acceptsPaths handleFuncPanic s ->
      exists res, Legacy.Start handleFuncPanic listen opts s = Returned res)).
Proof.
  split; [|split].
  - exact Legacy_NewStub_keys.
  - intros s m path h mws s' Hkeys Hadd key ri Hk. unfold Legacy.AddHandler in Hadd.
    destruct (Legacy.Server s); [discriminate|]. cbv zeta in Hadd.
    injection Hadd as <-. cbn [Legacy.routers] in Hk.
    apply lookup_insert_Some in Hk as [[<- _]|[_ Hk]].
    + apply splitFirstSpace_is_Some.
    + exact (Hkeys key ri Hk).
  - intros s handleFuncPanic listen opts Hkeys.
    destruct (groupByPath_spec (Legacy.routers s) Hkeys) as (byPath & Hg & _).
    split; [eauto|]. intros Hacc.
    unfold Legacy.Start. destruct (Legacy.mux s), (Legacy.Server s); eauto.
    rewrite Hg, (registerPaths_byPath handleFuncPanic s byPath Hg Hacc).
    cbv zeta. destruct (listen _ _); eauto.
Qed.

(** X23: in the earlier variant, when [HandleFunc] accepts the paths of the
    stub, a failed bind leaves the stub exactly as it was, so that the next
    [Start] is a first [Start]. *)
Lemma Legacy_Start_bind_failure_clean (s : Legacy.Stub)
    (handleFuncPanic : list string -> string -> option string)
    (listen : string -> string -> Listener + error) (opts : list Legacy.StartOption)
    (byPath : gmap string (gmap string routeInfo)) (err : error) :
  Legacy.mux s = None -> Legacy.Server s = None ->
  Legacy.groupByPath (Legacy.routers s) = Returned byPath ->
  Legacy.acceptsPaths handleFuncPanic s ->
  listen "tcp"
    (net_JoinHostPort ""
       (Legacy.cfg_port (fold_left (fun cfg opt => opt cfg) opts
                           {| Legacy.cfg_port := "" |}))) = inr err ->
  exists e, Legacy.Start handleFuncPanic listen opts s = Returned (s, Some e) /\
            Unwrap e = Some err.
Proof.
  intros Hm Hs Hg Hacc Hl. unfold Legacy.Start. rewrite Hm, Hs, Hg.
  rewrite (registerPaths_byPath handleFuncPanic s byPath Hg Hacc).
  cbv zeta. rewrite Hl.
  eexists. split; [destruct s; simpl in *; subst; reflexivity|reflexivity].
Qed.

End LegacyExtras.

Lemma handleFuncPanic121_fresh (registered : list string) (p : string) :
  p <> "" -> p ∉ registered -> handleFuncPanic121 registered p = None.
Proof.
  intros Hne Hnot. unfold handleFuncPanic121.
  destruct (String.eqb_spec p ""); [contradiction|].
  destruct (existsb (String.eqb p) registered) eqn:E; [|reflexivity].
  exfalso. apply existsb_exists in E as (q & Hin & Hq).
  apply String.eqb_eq in Hq as <-. apply Hnot. now apply list_elem_of_In.
Qed.

(** The only path of the new stub of the earlier variant is the readiness
    probe, which [HandleFunc] accepts. *)
Lemma Legacy_NewStub_acceptsPaths :
  Legacy.acceptsPaths handleFuncPanic121 (Legacy.NewStub (host := traceHost)).
Proof.
  intros registered p (key & ri & m & Hk & Hsplit) _ Hnot.
  apply handleFuncPanic121_fresh; [|exact Hnot].
  change (Legacy.routers (Legacy.NewStub (host := traceHost)))
    with (<["GET /readyz" :=
               {| handler := fun _ (w : @World traceHost) =>
                               onResp (fun rec => Write "ok" (WriteHeader http_StatusOK rec)) w;
                  middlewares := [] |}]> (∅ : gmap string (@routeInfo traceHost))) in Hk.
  apply lookup_insert_Some in Hk as [[<- _]|[_ Hk]];
    [|rewrite lookup_empty in Hk; discriminate].
  cbn in Hsplit. injection Hsplit as _ <-. discriminate.
Qed.


Lemma Legacy_groupByPath_round_trip_witness :
  exists byPath,
    Legacy.groupByPath (Legacy.routers (Legacy.NewStub (host := traceHost)))
    = Returned byPath /\
    is_Some (byPath !! "/readyz" ≫= (fun mm => mm !! "GET")).
Proof.
  destruct (proj1 (Legacy_groupByPath_round_trip (host := traceHost)
                     (Legacy.routers Legacy.NewStub))
              (Legacy_NewStub_keys (host := traceHost)))
    as (byPath & Hg & Hspec).
  exists byPath. split; [exact Hg|]. eexists.
  apply Hspec. split; reflexivity.
Defined.

Lemma Legacy_Start_serves_routes_witness :
  exists s' methodMap,
    Legacy.Start (host := traceHost) handleFuncPanic121 listenFree
      [Legacy.WithPort "8008"] Legacy.NewStub
    = Returned (s', None) /\
    Legacy.baseURL s' = "http://[::]:8008" /\
    RespBody (resp (Legacy.pathHandler methodMap (testRequest "GET" "/readyz") freshWorld))
    = "ok" /\
    Code (resp (Legacy.pathHandler methodMap (testRequest "POST" "/readyz") freshWorld))
    = 405%Z.
Proof.
  destruct (Legacy_Start_serves_routes (host := traceHost) Legacy.NewStub
              handleFuncPanic121 listenFree
              [Legacy.WithPort "8008"] {| Addr := "[::]:8008" |} eq_refl eq_refl
              (Legacy_NewStub_keys (host := traceHost))
              Legacy_NewStub_acceptsPaths eq_refl)
    as (s' & ms & Hstart & _ & Hurl & _ & Hroutes & _).
  destruct (Hroutes "GET" "/readyz"
              {| handler := fun _ w =>
                              onResp (fun rec => Write "ok" (WriteHeader http_StatusOK rec)) w;
                 middlewares := [] |}
              ltac:(vm_compute; reflexivity) eq_refl)
    as (methodMap & _ & Hrun & Hother).
  exists s', methodMap. split; [exact Hstart|]. split; [exact Hurl|]. split.
  - rewrite (Hrun (testRequest "GET" "/readyz") freshWorld eq_refl). reflexivity.
  - apply (Hother (testRequest "POST" "/readyz") []). vm_compute. reflexivity.
Defined.

Lemma Legacy_Start_returns_witness :
  exists res,
    Legacy.Start (host := traceHost) handleFuncPanic121 listenOccupied
      [Legacy.WithPort "12345"] Legacy.NewStub = Returned res.
Proof.
  apply (proj2 (proj2 (proj2 (Legacy_Start_returns (host := traceHost)))
                  Legacy.NewStub handleFuncPanic121 listenOccupied
                  [Legacy.WithPort "12345"]
                  (Legacy_NewStub_keys (host := traceHost)))).
  exact Legacy_NewStub_acceptsPaths.
Defined.

Lemma Legacy_Start_bind_failure_clean_witness :
  exists e,
    Legacy.Start (host := traceHost) handleFuncPanic121 listenOccupied
      [Legacy.WithPort "12345"] Legacy.NewStub = Returned (Legacy.NewStub, Some e) /\
    Unwrap e = Some (errorString "listen tcp :12345: bind: address already in use").
Proof.
  destruct (groupByPath_spec (host := traceHost) (Legacy.routers Legacy.NewStub)
              (Legacy_NewStub_keys (host := traceHost))) as (byPath & Hg & _).
  exact (Legacy_Start_bind_failure_clean (host := traceHost) Legacy.NewStub
           handleFuncPanic121 listenOccupied [Legacy.WithPort "12345"] byPath
           (errorString "listen tcp :12345: bind: address already in use")
           eq_refl eq_refl Hg Legacy_NewStub_acceptsPaths eq_refl).
Defined.

(** * Options of [NewStub] *)

Section OptionProperties.
Context `{host : Host}.

(** X24: the port of a new stub is the one of the last [WithPort] option;
    without any option it is the empty string, not [defaultPort], so that
    [Start] listens on the address [":"]. *)
Theorem NewStub_port (opts : list Option) (p : string) :
  port (NewStub (opts ++ [WithPort p])) = p /\
  port (NewStub []) = "" /\
  net_JoinHostPort "" (port (NewStub [])) = ":" /\
  mux (NewStub opts) = mux (NewStub []) /\
  routers (NewStub opts) = ∅ /\ templateRoutes (NewStub opts) = [] /\
  Server (NewStub opts) = None /\ closed (NewStub opts) = false.
Proof.
  unfold NewStub. cbn [port mux routers templateRoutes Server closed].
  rewrite fold_left_app. cbn [fold_left WithPort cfg_port]. repeat split.
Qed.

End OptionProperties.

(** * Keys of the exact map that end like another path *)

Lemma string_app_assoc (a b c : string) : (a ++ b) ++ c = a ++ (b ++ c).
Proof.
  induction a as [|x a IH]; [reflexivity|].
  change (String x ((a ++ b) ++ c) = String x (a ++ (b ++ c))). now rewrite IH.
Qed.

Section KeyCollision.
Context `{host : Host}.

(** C6: the dispatcher takes a path for known under another method when
    some key of the exact map ends with a space and that path
    ([strings.HasSuffix(k, " " + r.URL.Path)]), and a key is method, space
    and path in one string.  So after the registration of a route whose own
    path ends with a space and the path of a request, the dispatcher answers
    405 to that request when no route serves it, also when no route at all
    has the path of the request, where the answer is to be 404. *)
Theorem dispatch_key_suffix_collision (s s' : Stub) (m front path : string)
    (h : Handler) (mws : list Middleware) (r : Request) (e : HandlerState) :
  AddHandler s m (front ++ " " ++ path) h mws = Returned s' ->
  strings_ContainsByte (front ++ " " ++ path) colon = false ->
  URL_Path r = path ->
  (forall final, resolve s' r <> Serve final) ->
  resolve s' r = MethodNotAllowed /\
  Code (resp (dispatch s' r {| resp := NewRecorder; env := e |})) = 405%Z.
Proof.
  intros Hadd Hcolon Hpath Hunserved.
  destruct (resolve_served_inv s' r Hunserved) as [Hk Hscan].
  assert (Hknown : exactPathKnown (routers s') (" " ++ URL_Path r) = true).
  { apply exactPathKnown_spec.
    exists (strings_ToUpper m ++ " " ++ front), {| handler := h; middlewares := mws |}.
    unfold AddHandler in Hadd. rewrite Hcolon in Hadd. cbv zeta in Hadd.
    destruct (closed s); [discriminate|]. injection Hadd as <-. cbn [routers].
    rewrite Hpath, !string_app_assoc. apply lookup_insert_eq. }
  assert (Hres : resolve s' r = MethodNotAllowed).
  { unfold resolve. cbv zeta. now rewrite Hk, Hscan, Hknown. }
  split; [exact Hres|]. unfold dispatch. now rewrite Hres.
Qed.

End KeyCollision.

(** The only route is [GET "/a /foo"]; the request is [GET /foo]. *)
Lemma dispatch_key_suffix_collision_witness :
  exists s',
    AddHandler (host := traceHost) (NewStub []) "GET" "/a /foo" testHandler []
    = Returned s' /\
    routers s' = {[ "GET /a /foo" := {| handler := testHandler; middlewares := [] |} ]} /\
    templateRoutes s' = [] /\
    resolve s' (testRequest "GET" "/foo") = MethodNotAllowed /\
    Code (resp (dispatch s' (testRequest "GET" "/foo") freshWorld)) = 405%Z.
Proof.
  eexists. split; [reflexivity|]. split; [apply insert_empty|]. split; [reflexivity|].
  apply (dispatch_key_suffix_collision (host := traceHost) (NewStub []) _
           "GET" "/a" "/foo" testHandler [] (testRequest "GET" "/foo") []
           eq_refl eq_refl eq_refl).
  intros final H. vm_compute in H. discriminate H.
Defined.
